(** * GST purchase register vs GSTR-2B reconciliation

    A shallow embedding of the two Streamlit scripts of the repository,
    [app.py] (row loop over a lookup dictionary) and [app2.py] (vectorised
    left merge), and the properties of their reconciliation core.

    Conventions of the embedding.
    - A pandas frame is a list of rows (records) plus its column headers.
      A row has one cell under each of the six labels the scripts use.
      Workbooks in which two headers resolve to the same label, or to a
      name under which the scripts add a column of their own, have no such
      rows; [regular] excludes them, and the statements that conclude
      that a script produces a report assume it.
    - Cell values: GSTIN and invoice number are strings (what [astype(str)]
      yields), a parsed invoice date is [option Z] ([None] is NaT), a tax
      amount is a whole number [Z]; an empty tax cell (NaN) is [None] until
      [fillna(0)] has run.  Amounts with decimals are not modelled.
    - Numbers.  pandas holds a tax column as int64, or as float64 when a
      cell is empty; app.py computes on Python integers and floats, app2.py
      on the columns.  The embedding computes on the integers they stand
      for and keeps track of the one visible trace of the number format,
      the text of app.py's remark.  The two agree as long as nothing wraps
      around or is rounded: [exact] bounds the amounts by 2^50 for that,
      and the statements that depend on the arithmetic assume it.
    - Strings are byte strings in UTF-8; the character classes of the GSTIN
      pattern only contain ASCII characters.
    - [st.stop()] and uncaught Python exceptions end the script: they are
      the [Err] outcomes of the [outcome] monad below. *)

From Stdlib Require Import ZArith Ascii String List Bool Lia DecimalString.
From stdpp Require Import gmap strings list fin_maps sorting.

Local Open Scope string_scope.
Local Open Scope list_scope.
Local Open Scope Z_scope.

(** ** Script outcomes *)

(** [SeveralColumns key] stands for the ValueError that pandas raises when
    a script uses [df[key]] as a column while several columns of the frame
    carry that label, so that the selection is a frame; its text depends on
    the operation. *)
Inductive exn :=
| StStop (shown : string)      (* st.error(shown); st.stop() *)
| KeyError (key : string)      (* df[key] on a frame without that column *)
| ValueError (msg : string)
| SeveralColumns (key : string).

Inductive outcome (A : Type) :=
| Ok (a : A)
| Err (e : exn).
Arguments Ok {A} a.
Arguments Err {A} e.

#[global] Instance outcome_ret : MRet outcome := fun A a => Ok a.
#[global] Instance outcome_bind : MBind outcome := fun A B k m =>
  match m with
  | Ok a => k a
  | Err e => Err e
  end.

(** ** Regular expressions of the shape used by [valid_gstin]

    The pattern is a sequence of bracket classes with a fixed repeat count
    and literal characters, closed by [$].  Such a pattern never backtracks,
    so matching is a left-to-right scan. *)

Module Re.

Inductive charset :=
| Range (lo hi : ascii)            (* lo-hi inside brackets *)
| Alt (a b : charset).             (* juxtaposition inside brackets *)

Inductive item :=
| Times (cs : charset) (n : nat)   (* [cs]{n} *)
| Lit (c : ascii).                 (* a literal character *)

Fixpoint mem (cs : charset) (c : ascii) : bool :=
  match cs with
  | Range lo hi =>
      (nat_of_ascii lo <=? nat_of_ascii c)%nat
      && (nat_of_ascii c <=? nat_of_ascii hi)%nat
  | Alt a b => mem a c || mem b c
  end.

(** Consume exactly [n] characters of the class. *)
Fixpoint eat (cs : charset) (n : nat) (s : string) : option string :=
  match n with
  | O => Some s
  | S n' =>
      match s with
      | String c s' => if mem cs c then eat cs n' s' else None
      | EmptyString => None
      end
  end.

Definition step (it : item) (s : string) : option string :=
  match it with
  | Times cs n => eat cs n s
  | Lit c =>
      match s with
      | String c' s' => if Ascii.eqb c c' then Some s' else None
      | EmptyString => None
      end
  end.

Fixpoint run (its : list item) (s : string) : option string :=
  match its with
  | [] => Some s
  | it :: its' =>
      match step it s with
      | Some rest => run its' rest
      | None => None
      end
  end.

(** [$] without [re.MULTILINE]: at the end of the string, or just before
    a line feed that is the last character of the string. *)
Definition dollar (rest : string) : bool :=
  match rest with
  | EmptyString => true
  | String c EmptyString => Ascii.eqb c "010"%char
  | _ => false
  end.

(** [bool(re.match(its + '$', s))]; [re.match] anchors at the start, so
    the leading [^] of the pattern adds nothing. *)
Definition match_ (its : list item) (s : string) : bool :=
  match run its s with
  | Some rest => dollar rest
  | None => false
  end.

End Re.

Definition digit : Re.charset := Re.Range "0" "9".
Definition upper : Re.charset := Re.Range "A" "Z".

(** r'^[0-9]{2}[A-Z]{5}[0-9]{4}[A-Z]{1}[1-9A-Z]{1}Z[0-9A-Z]{1}$' *)
Definition pattern : list Re.item :=
  [ Re.Times digit 2; Re.Times upper 5; Re.Times digit 4; Re.Times upper 1;
    Re.Times (Re.Alt (Re.Range "1" "9") upper) 1; Re.Lit "Z";
    Re.Times (Re.Alt digit upper) 1 ].

(** app.py 27-29 and app2.py 29-31 (same text in both files). *)
Definition valid_gstin (gstin : string) : bool :=
  Re.match_ pattern gstin.

(** ** Frames as read from the two workbooks *)

(** The cells of one spreadsheet row under the six columns the scripts use.
    Whether a column exists at all is recorded by [columns] of the table. *)
Record Cells := {
  c_GSTIN : string;
  c_Invoice_Number : string;
  c_Invoice_Date : option Z;
  c_CGST : option Z;
  c_SGST : option Z;
  c_IGST : option Z
}.

(** [pd.read_excel(file)]: the header row and the data rows. *)
Record Table := {
  columns : list string;
  rows : list Cells
}.

(** The characters that Python's [str.strip()] removes, as they appear in
    a UTF-8 byte string.  One byte: tab, line feed, vertical tab, form
    feed, carriage return, the four separators 0x1c-0x1f and space. *)
Definition is_space (c : ascii) : bool :=
  let n := nat_of_ascii c in
  ((9 <=? n) && (n <=? 13) || (28 <=? n) && (n <=? 31) || (n =? 32))%nat.

(** Two bytes: U+0085 (C2 85) and U+00A0 (C2 A0). *)
Definition is_space2 (c d : ascii) : bool :=
  bool_decide (nat_of_ascii c = 194
               /\ (nat_of_ascii d = 133 \/ nat_of_ascii d = 160))%nat.

(** Three bytes: U+1680 (E1 9A 80), U+2000-U+200A (E2 80 80-8A),
    U+2028, U+2029, U+202F (E2 80 A8, A9, AF), U+205F (E2 81 9F) and
    U+3000 (E3 80 80). *)
Definition is_space3 (c d e : ascii) : bool :=
  bool_decide
    ((nat_of_ascii c = 225 /\ nat_of_ascii d = 154 /\ nat_of_ascii e = 128)
     \/ (nat_of_ascii c = 226 /\ nat_of_ascii d = 128
         /\ (128 <= nat_of_ascii e <= 138 \/ nat_of_ascii e = 168
             \/ nat_of_ascii e = 169 \/ nat_of_ascii e = 175))
     \/ (nat_of_ascii c = 226 /\ nat_of_ascii d = 129
         /\ nat_of_ascii e = 159)
     \/ (nat_of_ascii c = 227 /\ nat_of_ascii d = 128
         /\ nat_of_ascii e = 128))%nat.

(** The string is one such character. *)
Definition whitespace (s : string) : bool :=
  match s with
  | String c EmptyString => is_space c
  | String c (String d EmptyString) => is_space2 c d
  | String c (String d (String e EmptyString)) => is_space3 c d e
  | _ => false
  end.

(** [str.lstrip()]: leading white space characters are dropped one by one. *)
Fixpoint lstrip (s : string) : string :=
  match s with
  | EmptyString => EmptyString
  | String c s1 =>
      if is_space c then lstrip s1
      else
        match s1 with
        | EmptyString => s
        | String d s2 =>
            if is_space2 c d then lstrip s2
            else
              match s2 with
              | EmptyString => s
              | String e s3 => if is_space3 c d e then lstrip s3 else s
              end
        end
  end.

(** [str.rstrip()], from the end of the string backwards: what is left of
    the tail is extended by one byte, and dropped when that makes it one
    white space character. *)
Fixpoint rstrip (s : string) : string :=
  match s with
  | EmptyString => EmptyString
  | String c s' =>
      let t := String c (rstrip s') in
      if whitespace t then EmptyString else t
  end.

Definition strip (s : string) : string := lstrip (rstrip s).

(** [df.rename(columns=m)]: a header that is a key of [m] is replaced. *)
Definition rename (m : gmap string string) (c : string) : string :=
  default c (m !! c).

(** [df.columns.str.strip()] followed by [df.rename(columns=m)]. *)
Definition resolve (m : gmap string string) (t : Table) : list string :=
  (fun c => rename m (strip c)) <$> columns t.

(** [df[col]] used as a column: raises [KeyError] when the frame has no
    column of that label, and yields one column only when exactly one
    carries it. *)
Definition getcol (col : string) (cols : list string) : outcome unit :=
  match filter (fun c => c = col) cols with
  | [] => Err (KeyError col)
  | [_] => Ok tt
  | _ => Err (SeveralColumns col)
  end.

(** [for col in cols_needed: body col], stopping at the first failure. *)
Fixpoint for_each (l : list string) (body : string -> outcome unit)
  : outcome unit :=
  match l with
  | [] => Ok tt
  | x :: l' => body x ;; for_each l' body
  end.

(** [.fillna(0)] on one tax cell: the number the cell stands for
    afterwards.  (The column keeps its dtype: 0 in an int64 column, 0.0 in
    a float64 column.) *)
Definition fillna0 (x : option Z) : Z := default 0 x.

(** [gstin.astype(str) + "_" + invoice_number.astype(str)] *)
Definition make_key (gstin invoice_number : string) : string :=
  gstin +:+ "_" +:+ invoice_number.

(** [str(n)] / [f"{n}"] of a Python integer. *)
Definition pystr (n : Z) : string := NilZero.string_of_int (Z.to_int n).

(** [f"{x}"] of a number that is a Python integer, or a Python float
    holding a whole number below 10^16, which is written in full and
    closed by ".0". *)
Definition pynum (float : bool) (n : Z) : string :=
  if float then pystr n +:+ ".0" else pystr n.

(** One of the three tax columns of the workbook has an empty cell.
    pandas reads a column of whole numbers as int64, and as float64 as
    soon as one of its cells is empty; [fillna(0)] does not change that. *)
Definition has_empty (t : Table) : bool :=
  bool_decide (Exists (fun c => c_CGST c = None \/ c_SGST c = None
                                \/ c_IGST c = None) (rows t)).


(** A row of [purchase_df] once the tax cells are filled and the columns
    [GSTIN_Valid] and [KEY] are added. *)
Module Purchase.
Record row := {
  GSTIN : string;
  Invoice_Number : string;
  Invoice_Date : option Z;
  CGST : Z;
  SGST : Z;
  IGST : Z;
  GSTIN_Valid : bool;
  KEY : string
}.

Definition prepare (c : Cells) : row :=
  {| GSTIN := c_GSTIN c;
     Invoice_Number := c_Invoice_Number c;
     Invoice_Date := c_Invoice_Date c;
     CGST := fillna0 (c_CGST c);
     SGST := fillna0 (c_SGST c);
     IGST := fillna0 (c_IGST c);
     GSTIN_Valid := valid_gstin (c_GSTIN c);
     KEY := make_key (c_GSTIN c) (c_Invoice_Number c) |}.
End Purchase.

(** A row of [b2b_df] once the tax cells are filled and [KEY] is added. *)
Module B2B.
Record row := {
  GSTIN : string;
  Invoice_Number : string;
  Invoice_Date : option Z;
  CGST : Z;
  SGST : Z;
  IGST : Z;
  KEY : string
}.

Definition prepare (c : Cells) : row :=
  {| GSTIN := c_GSTIN c;
     Invoice_Number := c_Invoice_Number c;
     Invoice_Date := c_Invoice_Date c;
     CGST := fillna0 (c_CGST c);
     SGST := fillna0 (c_SGST c);
     IGST := fillna0 (c_IGST c);
     KEY := make_key (c_GSTIN c) (c_Invoice_Number c) |}.
End B2B.

(** A row of [result_df]. *)
Module Report.
Record row := {
  GSTIN : string;
  Invoice_Number : string;
  Invoice_Date : option Z;
  CGST : Z;
  SGST : Z;
  IGST : Z;
  Status : string;
  Remark : string
}.
End Report.

(** ** Aggregation (the same pandas expressions in both scripts) *)

(** [Series.value_counts()]: an entry for every value that occurs, holding
    its number of occurrences.  The order of the entries is not modelled. *)
Definition value_counts (s : list string) : gmap string nat :=
  foldr (fun v acc => <[v := S (default 0%nat (acc !! v))]> acc) ∅ s.

(** [df.groupby("GSTIN")["Status"]]: per GSTIN, its Status cells. *)
Definition groupby_status (df : list Report.row) : gmap string (list string) :=
  foldr (fun r acc =>
           <[Report.GSTIN r :=
               Report.Status r :: default [] (acc !! Report.GSTIN r)]> acc)
        ∅ df.

(** [.unstack()]: the inner index level becomes the columns; a cell with no
    entry in the series is NaN, here [None]. *)
Definition unstack (ser : gmap string (gmap string nat))
  : gmap string (gmap string (option nat)) :=
  let cols : gset string := ⋃ ((fun kv => dom kv.2) <$> map_to_list ser) in
  (fun counts => (Some <$> counts) ∪ gset_to_gmap None cols) <$> ser.

(** [.fillna(0)] on the unstacked frame. *)
Definition fillna0_frame (fr : gmap string (gmap string (option nat)))
  : gmap string (gmap string nat) :=
  (fun r : gmap string (option nat) => default 0%nat <$> r) <$> fr.

(** [df.groupby("GSTIN")["Status"].value_counts().unstack().fillna(0)] *)
Definition vendor_summary (df : list Report.row)
  : gmap string (gmap string nat) :=
  fillna0_frame (unstack (value_counts <$> groupby_status df)).

(** Sum of one row of the Vendor Summary over its status columns. *)
Definition row_total (r : gmap string nat) : nat :=
  map_fold (fun _ n acc => (n + acc)%nat) 0%nat r.

(** [len(df[df["Status"] == s])] *)
Definition metric (s : string) (df : list Report.row) : nat :=
  length (filter (fun r => Report.Status r = s) df).

Record Dashboard := {
  Total : nat;
  Matched : nat;
  Missing : nat;
  Mismatch : nat;
  Status_Distribution : gmap string nat;
  Vendor_Summary : gmap string (gmap string nat)
}.

Definition dashboard (df : list Report.row) : Dashboard :=
  {| Total := length df;
     Matched := metric "Matched" df;
     Missing := metric "Missing in 2B" df;
     Mismatch := metric "Mismatch" df;
     Status_Distribution := value_counts (Report.Status <$> df);
     Vendor_Summary := vendor_summary df |}.

(** ** app.py *)

Module App.

(** Lines 45-54 and 70-79. *)
Definition rename_map : gmap string string :=
  list_to_map
    [ ("GSTIN", "GSTIN");
      ("Invoice Number", "Invoice_Number");
      ("Invoice No", "Invoice_Number");
      ("Invoice Date", "Invoice_Date");
      ("Invoice_Date", "Invoice_Date");
      ("CGST", "CGST");
      ("SGST", "SGST");
      ("IGST", "IGST") ].

(** Lines 56-62 and 81-87: only the date column is looked for. *)
Definition check_date (cols : list string) (shown : string) : outcome unit :=
  if decide ("Invoice_Date" ∈ cols) then Ok tt else Err (StStop shown).

(** Lines 42-112: every column access of the preparation, in program
    order.  A column that is not there raises [KeyError] at its first
    use. *)
Definition prepare (purchase_file b2b_file : Table)
  : outcome (list Purchase.row * list B2B.row) :=
  let pcols := resolve rename_map purchase_file in
  check_date pcols "❌ Invoice Date column not found in Purchase Excel" ;;
  getcol "Invoice_Date" pcols ;;
  let bcols := resolve rename_map b2b_file in
  check_date bcols "❌ Invoice Date column not found in GSTR-2B Excel" ;;
  getcol "Invoice_Date" bcols ;;
  for_each ["CGST"; "SGST"; "IGST"]
    (fun col => getcol col pcols ;; getcol col bcols) ;;
  getcol "GSTIN" pcols ;;
  getcol "GSTIN" pcols ;; getcol "Invoice_Number" pcols ;;
  getcol "GSTIN" bcols ;; getcol "Invoice_Number" bcols ;;
  Ok (Purchase.prepare <$> rows purchase_file,
      B2B.prepare <$> rows b2b_file).

(** Line 115, [b2b_df.set_index("KEY").to_dict("index")]: pandas rejects
    an index with repeated labels for this orientation
    ("DataFrame index must be unique for orient='index'."). *)
Definition to_dict_index (b2b_df : list B2B.row)
  : outcome (gmap string B2B.row) :=
  if decide (NoDup (B2B.KEY <$> b2b_df))
  then Ok (foldl (fun d r => <[B2B.KEY r := r]> d) ∅ b2b_df)
  else Err (ValueError "DataFrame index must be unique for orient='index'.").

(** Lines 138-142: the number that Python's [abs], [-] and [+] yield on
    integers, and on floats as long as nothing is rounded. *)
Definition tax_diff (row : Purchase.row) (b2b_row : B2B.row) : Z :=
  Z.abs (Purchase.CGST row - B2B.CGST b2b_row)
  + Z.abs (Purchase.SGST row - B2B.SGST b2b_row)
  + Z.abs (Purchase.IGST row - B2B.IGST b2b_row).

(** The cells reach the loop as Python numbers: integers from an int64
    column, floats from a float64 column.  The sum of line 138 is a float
    as soon as one of its six operands is, that is, when a tax column of
    either workbook has an empty cell. *)
Definition float_taxes (purchase_file b2b_file : Table) : bool :=
  has_empty purchase_file || has_empty b2b_file.

(** Lines 124-146: status and remark of one purchase row; [float] tells
    whether [tax_diff] is a float. *)
Definition status_remark (float : bool) (b2b_dict : gmap string B2B.row)
    (row : Purchase.row) : string * string :=
  let key := Purchase.KEY row in
  if negb (Purchase.GSTIN_Valid row) then ("Invalid GSTIN", "")
  else
    match b2b_dict !! key with
    | None => ("Missing in 2B", "Invoice not available in GSTR-2B")
    | Some b2b_row =>
        let d := tax_diff row b2b_row in
        if negb (d =? 0)
        then ("Mismatch", "Tax Difference = " +:+ pynum float d)
        else ("Matched", "")
    end.

(** Lines 148-157. *)
Definition classify (float : bool) (b2b_dict : gmap string B2B.row)
    (row : Purchase.row) : Report.row :=
  let sr := status_remark float b2b_dict row in
  {| Report.GSTIN := Purchase.GSTIN row;
     Report.Invoice_Number := Purchase.Invoice_Number row;
     Report.Invoice_Date := Purchase.Invoice_Date row;
     Report.CGST := Purchase.CGST row;
     Report.SGST := Purchase.SGST row;
     Report.IGST := Purchase.IGST row;
     Report.Status := sr.1;
     Report.Remark := sr.2 |}.

(** Lines 120-159: the loop appends one dictionary per purchase row. *)
Definition results (float : bool) (b2b_dict : gmap string B2B.row)
    (purchase_df : list Purchase.row) : list Report.row :=
  classify float b2b_dict <$> purchase_df.

(** Lines 42-159: from the two workbooks to [result_df]. *)
Definition run (purchase_file b2b_file : Table) : outcome (list Report.row) :=
  '(purchase_df, b2b_df) ← prepare purchase_file b2b_file;
  b2b_dict ← to_dict_index b2b_df;
  Ok (results (float_taxes purchase_file b2b_file) b2b_dict purchase_df).

(** Line 159, [pd.DataFrame(results)]: the columns of the frame are the
    keys of the dictionaries in the list, so the frame of an empty list
    has no column at all. *)
Definition frame_columns (results : list Report.row) : list string :=
  match results with
  | [] => []
  | _ => ["GSTIN"; "Invoice Number"; "Invoice Date"; "CGST"; "SGST"; "IGST";
          "Status"; "Remark"]
  end.

(** Lines 164-194: the column accesses of the dashboard in program order
    (the three KPI cards and the chart read Status, the summary groups by
    GSTIN and reads Status). *)
Definition report (result_df : list Report.row) : outcome Dashboard :=
  let cols := frame_columns result_df in
  for_each ["Status"; "Status"; "Status"; "Status"; "GSTIN"; "Status"]
    (fun col => getcol col cols) ;;
  Ok (dashboard result_df).

End App.

(** ** app2.py *)

Module App2.

(** Lines 54-62. *)
Definition rename_map : gmap string string :=
  list_to_map
    [ ("Invoice Number", "Invoice_Number");
      ("Invoice No", "Invoice_Number");
      ("Invoice Date", "Invoice_Date");
      ("GSTIN", "GSTIN");
      ("CGST", "CGST");
      ("SGST", "SGST");
      ("IGST", "IGST") ].

(** Line 68. *)
Definition required_cols : list string :=
  ["GSTIN"; "Invoice_Number"; "Invoice_Date"; "CGST"; "SGST"; "IGST"].

(** Lines 70-76. *)
Fixpoint validate (cols_left pcols bcols : list string) : outcome unit :=
  match cols_left with
  | [] => Ok tt
  | col :: cols_left' =>
      if decide (col ∈ pcols) then
        if decide (col ∈ bcols) then validate cols_left' pcols bcols
        else Err (StStop ("❌ Missing column in 2B File: " +:+ col))
      else Err (StStop ("❌ Missing column in Purchase File: " +:+ col))
  end.

(** Lines 47-92: the validation, then every column access of the
    preparation in program order. *)
Definition prepare (purchase_file b2b_file : Table)
  : outcome (list Purchase.row * list B2B.row) :=
  let pcols := resolve rename_map purchase_file in
  let bcols := resolve rename_map b2b_file in
  validate required_cols pcols bcols ;;
  getcol "Invoice_Date" pcols ;;
  getcol "Invoice_Date" bcols ;;
  for_each ["CGST"; "SGST"; "IGST"]
    (fun col => getcol col pcols ;; getcol col bcols) ;;
  getcol "GSTIN" pcols ;;
  getcol "GSTIN" pcols ;; getcol "Invoice_Number" pcols ;;
  getcol "GSTIN" bcols ;; getcol "Invoice_Number" bcols ;;
  Ok (Purchase.prepare <$> rows purchase_file,
      B2B.prepare <$> rows b2b_file).

(** A row of [merged_df]: the purchase columns and the three reference
    amounts under the suffix [_2B], NaN ([None]) without a partner. *)
Record merged := {
  left : Purchase.row;
  CGST_2B : option Z;
  SGST_2B : option Z;
  IGST_2B : option Z
}.

(** Lines 97-102, [purchase_df.merge(b2b_df[...], on="KEY", how="left")]:
    the purchase rows in their order, each one paired with every
    reference row of the same KEY in reference order, or kept once with
    empty [_2B] cells when there is none. *)
Definition merge (purchase_df : list Purchase.row) (b2b_df : list B2B.row)
  : list merged :=
  p ← purchase_df;
  match filter (fun r => B2B.KEY r = Purchase.KEY p) b2b_df with
  | [] => [ {| left := p; CGST_2B := None; SGST_2B := None;
               IGST_2B := None |} ]
  | partners =>
      (fun r => {| left := p;
                   CGST_2B := Some (B2B.CGST r);
                   SGST_2B := Some (B2B.SGST r);
                   IGST_2B := Some (B2B.IGST r) |}) <$> partners
  end.

(** [(a - b).abs().fillna(0)] on one cell pair: NaN propagates through
    the subtraction and [abs] and is then replaced by 0.  The number is
    that of the column arithmetic as long as int64 does not wrap around
    and float64 does not round. *)
Definition abs_diff (a : Z) (b : option Z) : Z :=
  fillna0 (Z.abs <$> ((fun b' => a - b') <$> b)).

(** Lines 111-115. *)
Definition Tax_Diff (m : merged) : Z :=
  abs_diff (Purchase.CGST (left m)) (CGST_2B m)
  + abs_diff (Purchase.SGST (left m)) (SGST_2B m)
  + abs_diff (Purchase.IGST (left m)) (IGST_2B m).

(** Lines 107-128: the masked assignments, in program order, as they act
    on one row. *)
Definition status_remark (m : merged) : string * string :=
  let valid := Purchase.GSTIN_Valid (left m) in
  let status := "Matched" in
  let remark := "" in
  let status := if negb valid then "Invalid GSTIN" else status in
  let missing_mask := bool_decide (CGST_2B m = None) in
  let status := if missing_mask && valid then "Missing in 2B" else status in
  let remark :=
    if missing_mask && valid then "Invoice not in 2B" else remark in
  let mismatch_mask := negb (Tax_Diff m =? 0) && negb missing_mask in
  let status := if mismatch_mask && valid then "Mismatch" else status in
  let remark := if mismatch_mask && valid then "Tax Difference" else remark in
  (status, remark).

(** Lines 131-134. *)
Definition classify (m : merged) : Report.row :=
  let sr := status_remark m in
  {| Report.GSTIN := Purchase.GSTIN (left m);
     Report.Invoice_Number := Purchase.Invoice_Number (left m);
     Report.Invoice_Date := Purchase.Invoice_Date (left m);
     Report.CGST := Purchase.CGST (left m);
     Report.SGST := Purchase.SGST (left m);
     Report.IGST := Purchase.IGST (left m);
     Report.Status := sr.1;
     Report.Remark := sr.2 |}.

Definition results (purchase_df : list Purchase.row)
    (b2b_df : list B2B.row) : list Report.row :=
  classify <$> merge purchase_df b2b_df.

(** Lines 47-134: from the two workbooks to [result_df]. *)
Definition run (purchase_file b2b_file : Table) : outcome (list Report.row) :=
  '(purchase_df, b2b_df) ← prepare purchase_file b2b_file;
  Ok (results purchase_df b2b_df).

(** Lines 153-198 with the three sidebar filters left empty, which is
    their initial state: [filtered_df] is then a copy of [result_df]. *)
Definition report (result_df : list Report.row) : Dashboard :=
  dashboard result_df.

End App2.

(** ** Sample workbooks *)

Definition headers : list string :=
  ["GSTIN"; "Invoice No"; "Invoice Date"; "CGST"; "SGST"; "IGST"].

Definition cells (gstin inv : string) (cgst sgst igst : Z) : Cells :=
  {| c_GSTIN := gstin; c_Invoice_Number := inv; c_Invoice_Date := Some 0;
     c_CGST := Some cgst; c_SGST := Some sgst; c_IGST := Some igst |}.

Definition book (r : list Cells) : Table :=
  {| columns := headers; rows := r |}.

(** ** The GSTIN format, position by position *)

Definition code (c : ascii) : nat := nat_of_ascii c.

Definition is_digit (c : ascii) : bool := (48 <=? code c)%nat && (code c <=? 57)%nat.
Definition is_nonzero_digit (c : ascii) : bool :=
  (49 <=? code c)%nat && (code c <=? 57)%nat.
Definition is_upper (c : ascii) : bool := (65 <=? code c)%nat && (code c <=? 90)%nat.
Definition is_lower (c : ascii) : bool := (97 <=? code c)%nat && (code c <=? 122)%nat.

(** What the pattern of [valid_gstin] spells out, as a test on a string of
    exactly fifteen characters. *)
Definition gstin_form (s : string) : bool :=
  match list_ascii_of_string s with
  | [c1; c2; c3; c4; c5; c6; c7; c8; c9; c10; c11; c12; c13; c14; c15] =>
      is_digit c1 && is_digit c2
      && is_upper c3 && is_upper c4 && is_upper c5 && is_upper c6
      && is_upper c7
      && is_digit c8 && is_digit c9 && is_digit c10 && is_digit c11
      && is_upper c12
      && (is_nonzero_digit c13 || is_upper c13)
      && Ascii.eqb "Z" c14
      && (is_digit c15 || is_upper c15)
  | _ => false
  end.

(** The format as the specification words it: the thirteenth and the last
    character are "alphanumeric", read here as any ASCII digit or letter. *)
Definition is_alphanumeric (c : ascii) : bool :=
  is_digit c || is_upper c || is_lower c.

Definition spec_gstin_form (s : string) : bool :=
  match list_ascii_of_string s with
  | [c1; c2; c3; c4; c5; c6; c7; c8; c9; c10; c11; c12; c13; c14; c15] =>
      is_digit c1 && is_digit c2
      && is_upper c3 && is_upper c4 && is_upper c5 && is_upper c6
      && is_upper c7
      && is_digit c8 && is_digit c9 && is_digit c10 && is_digit c11
      && is_upper c12
      && is_alphanumeric c13
      && Ascii.eqb "Z" c14
      && is_alphanumeric c15
  | _ => false
  end.

(** The last character of the string is a line feed. *)
Fixpoint ends_with_lf (s : string) : bool :=
  match s with
  | EmptyString => false
  | String c EmptyString => Ascii.eqb c "010"
  | String _ s' => ends_with_lf s'
  end.

(** ** Auxiliary definitions used in the statements *)

Definition key_of (c : Cells) : string :=
  make_key (c_GSTIN c) (c_Invoice_Number c).

(** All six canonical columns are found among the resolved headers. *)
Definition complete (m : gmap string string) (t : Table) : Prop :=
  Forall (fun col => col ∈ resolve m t) App2.required_cols.

#[global] Instance complete_dec m t : Decision (complete m t).
Proof. unfold complete. apply _. Defined.

(** The names under which the scripts add columns of their own to the
    frames (lines 99-109 of app.py; lines 88-92, 97-102 and 107-111 of
    app2.py, where [_2B] is the suffix of the merge). *)
Definition own_columns : list string :=
  ["GSTIN_Valid"; "KEY"; "CGST_2B"; "SGST_2B"; "IGST_2B";
   "Status"; "Remark"; "Tax_Diff"].

(** The headers of the workbook resolve to pairwise different names, none
    of which is one of the scripts' own.  A row of such a workbook has one
    cell under each label, as [Cells] has it. *)
Definition regular (t : Table) : Prop :=
  NoDup (resolve App2.rename_map t)
  /\ Forall (fun c => c ∉ own_columns) (resolve App2.rename_map t).

#[global] Instance regular_dec t : Decision (regular t).
Proof. unfold regular. apply _. Defined.

(** The dictionary of line 115 once it is built. *)
Definition build (l : list B2B.row) : gmap string B2B.row :=
  foldl (fun d r => <[B2B.KEY r := r]> d) ∅ l.

(** The merged rows that one purchase row gives rise to. *)
Definition partners (p : Purchase.row) (b2b_df : list B2B.row)
  : list App2.merged :=
  match filter (fun r => B2B.KEY r = Purchase.KEY p) b2b_df with
  | [] => [ {| App2.left := p; App2.CGST_2B := None;
               App2.SGST_2B := None; App2.IGST_2B := None |} ]
  | ms =>
      (fun r => {| App2.left := p;
                   App2.CGST_2B := Some (B2B.CGST r);
                   App2.SGST_2B := Some (B2B.SGST r);
                   App2.IGST_2B := Some (B2B.IGST r) |}) <$> ms
  end.

(** A report row carries the cells of a purchase row, tax cells filled. *)
Definition describes (r : Report.row) (c : Cells) : Prop :=
  Report.GSTIN r = c_GSTIN c
  /\ Report.Invoice_Number r = c_Invoice_Number c
  /\ Report.Invoice_Date r = c_Invoice_Date c
  /\ Report.CGST r = fillna0 (c_CGST c)
  /\ Report.SGST r = fillna0 (c_SGST c)
  /\ Report.IGST r = fillna0 (c_IGST c).

Definition occurrences (s : string) (l : list string) : nat :=
  length (filter (fun x => x = s) l).

Definition statuses_of (g : string) (df : list Report.row) : list string :=
  Report.Status <$> filter (fun r => Report.GSTIN r = g) df.

(** The absolute differences of the three tax cells, filled, summed. *)
Definition diff_of (c r : Cells) : Z :=
  Z.abs (fillna0 (c_CGST c) - fillna0 (c_CGST r))
  + Z.abs (fillna0 (c_SGST c) - fillna0 (c_SGST r))
  + Z.abs (fillna0 (c_IGST c) - fillna0 (c_IGST r)).


Definition purchases_of (g : string) (l : list Cells) : nat :=
  length (filter (fun c => c_GSTIN c = g) l).

Definition reported_of (g : string) (df : list Report.row) : nat :=
  length (filter (fun r => Report.GSTIN r = g) df).

(** Sample rows: the purchase row of the scenarios, reference rows with the
    same key, a row with a malformed GSTIN, an unrelated reference row. *)
Definition p1 : Cells := cells "27AAAPL1234C1Z5" "INV001" 100 100 0.
Definition r_same : Cells := cells "27AAAPL1234C1Z5" "INV001" 100 100 0.
Definition r_90 : Cells := cells "27AAAPL1234C1Z5" "INV001" 90 100 0.
Definition p_bad : Cells := cells "INVALID123" "INV001" 100 100 0.
Definition r_bad : Cells := cells "INVALID123" "INV001" 90 100 0.
Definition r_other : Cells := cells "29BBBPL9876D1Z3" "X7" 5 5 0.

(** A purchase workbook without the CGST column. *)
Definition no_cgst : Table :=
  {| columns := ["GSTIN"; "Invoice No"; "Invoice Date"; "SGST"; "IGST"];
     rows := [p1] |}.

(** A tax cell is empty or holds a whole number of magnitude at most 2^50.
    Such amounts, their differences and the sums of three absolute
    differences stay below 2^53: an int64 column, a float64 column (which a
    column with an empty cell is) and Python's own numbers all hold them
    exactly, nothing wraps around and nothing is rounded. *)
Definition exact_cell (x : option Z) : Prop := Z.abs (fillna0 x) <= 2 ^ 50.

Definition exact (t : Table) : Prop :=
  Forall (fun c => exact_cell (c_CGST c) /\ exact_cell (c_SGST c)
                   /\ exact_cell (c_IGST c)) (rows t).

#[global] Instance exact_dec t : Decision (exact t).
Proof. unfold exact, exact_cell. apply _. Defined.



(** ** app2.py: the sidebar *)

(** [Series.unique()]: the values in order of first appearance. *)
Fixpoint unique (l : list string) : list string :=
  match l with
  | [] => []
  | x :: l' => x :: filter (fun y => y <> x) (unique l')
  end.

(** Line 143, [sorted(result_df["GSTIN"].unique())]: Python orders strings
    by code point, which on byte strings is [String.le]. *)
Definition vendor_options (result_df : list Report.row) : list string :=
  merge_sort String.le (unique (Report.GSTIN <$> result_df)).

(** Line 148. *)
Definition status_options : list string :=
  ["Matched"; "Mismatch"; "Missing in 2B"; "Invalid GSTIN"].

(** What the three widgets return: the selected vendors, the selected
    statuses, and the dates picked so far (none, one or two), as
    timestamps. *)
Record Sidebar := {
  vendor_filter : list string;
  status_filter : list string;
  date_range : list Z
}.

(** Lines 162-165, one row: both comparisons against NaT are False. *)
Definition in_range (lo hi : Z) (d : option Z) : bool :=
  match d with
  | Some t => (lo <=? t) && (t <=? hi)
  | None => false
  end.

(** Lines 153-165. *)
Definition filtered_df (result_df : list Report.row) (sb : Sidebar)
  : list Report.row :=
  let filtered_df := result_df in
  let filtered_df :=
    match vendor_filter sb with
    | [] => filtered_df
    | _ => filter (fun r => Report.GSTIN r ∈ vendor_filter sb) filtered_df
    end in
  let filtered_df :=
    match status_filter sb with
    | [] => filtered_df
    | _ => filter (fun r => Report.Status r ∈ status_filter sb) filtered_df
    end in
  match date_range sb with
  | [d0; d1] =>
      filter (fun r => in_range d0 d1 (Report.Invoice_Date r) = true)
             filtered_df
  | _ => filtered_df
  end.

(** Lines 170-200: the figures shown for the current sidebar state. *)
Definition view (result_df : list Report.row) (sb : Sidebar) : Dashboard :=
  dashboard (filtered_df result_df sb).

(** ** Further definitions used in the statements *)

(** The string is a sequence of white space characters of [str.strip()]. *)
Fixpoint blank (s : string) : bool :=
  match s with
  | EmptyString => true
  | String c s1 =>
      if is_space c then blank s1
      else
        match s1 with
        | EmptyString => false
        | String d s2 =>
            if is_space2 c d then blank s2
            else
              match s2 with
              | EmptyString => false
              | String e s3 => is_space3 c d e && blank s3
              end
        end
  end.


(** Number of report rows of one vendor with one status. *)
Definition cell_count (g s : string) (df : list Report.row) : nat :=
  length (filter (fun r => Report.GSTIN r = g /\ Report.Status r = s) df).

(** A reference row has the key and the tax amounts shown on a report row. *)
Definition agrees_with (r : Cells) (row : Report.row) : Prop :=
  key_of r = make_key (Report.GSTIN row) (Report.Invoice_Number row)
  /\ fillna0 (c_CGST r) = Report.CGST row
  /\ fillna0 (c_SGST r) = Report.SGST row
  /\ fillna0 (c_IGST r) = Report.IGST row.

(** The tax difference between a report row and a reference row. *)
Definition diff_to (row : Report.row) (r : Cells) : Z :=
  Z.abs (Report.CGST row - fillna0 (c_CGST r))
  + Z.abs (Report.SGST row - fillna0 (c_SGST r))
  + Z.abs (Report.IGST row - fillna0 (c_IGST r)).

(** The join key of the purchase row shown on a report row. *)
Definition row_key (row : Report.row) : string :=
  make_key (Report.GSTIN row) (Report.Invoice_Number row).

(** The four ways a report row can have come about, given the reference
    workbook and the two remark texts of the script. *)
Definition verdict (missing_remark : string) (mismatch_remark : Z -> string)
    (b2b_file : Table) (row : Report.row) : Prop :=
  (valid_gstin (Report.GSTIN row) = false
   /\ Report.Status row = "Invalid GSTIN" /\ Report.Remark row = "")
  \/ (valid_gstin (Report.GSTIN row) = true
      /\ (forall r, r ∈ rows b2b_file -> key_of r <> row_key row)
      /\ Report.Status row = "Missing in 2B"
      /\ Report.Remark row = missing_remark)
  \/ (valid_gstin (Report.GSTIN row) = true
      /\ exists r, r ∈ rows b2b_file /\ key_of r = row_key row
           /\ diff_to row r = 0
           /\ Report.Status row = "Matched" /\ Report.Remark row = "")
  \/ (valid_gstin (Report.GSTIN row) = true
      /\ exists r, r ∈ rows b2b_file /\ key_of r = row_key row
           /\ diff_to row r <> 0
           /\ Report.Status row = "Mismatch"
           /\ Report.Remark row = mismatch_remark (diff_to row r)).

(** A sample row with a given invoice date and an empty CGST and IGST
    cell. *)
Definition dated (gstin inv : string) (d : option Z) : Cells :=
  {| c_GSTIN := gstin; c_Invoice_Number := inv; c_Invoice_Date := d;
     c_CGST := None; c_SGST := Some 5; c_IGST := None |}.

(** * Properties *)

Lemma mem_entity c :
  Re.mem (Re.Alt (Re.Range "1" "9") upper) c = is_nonzero_digit c || is_upper c.
Proof. reflexivity. Qed.

Lemma mem_check c :
  Re.mem (Re.Alt digit upper) c = is_digit c || is_upper c.
Proof. reflexivity. Qed.

Lemma run_times_S cs n its c s :
  Re.run (Re.Times cs (S n) :: its) (String c s) =
  if Re.mem cs c then Re.run (Re.Times cs n :: its) s else None.
Proof. cbn. by destruct (Re.mem cs c). Qed.

Lemma run_times_O cs its s : Re.run (Re.Times cs 0 :: its) s = Re.run its s.
Proof. reflexivity. Qed.

Lemma run_lit c its c' s :
  Re.run (Re.Lit c :: its) (String c' s) =
  if Ascii.eqb c c' then Re.run its s else None.
Proof. cbn. by destruct (Ascii.eqb c c'). Qed.

Lemma run_times_nil cs n its :
  Re.run (Re.Times cs (S n) :: its) EmptyString = None.
Proof. reflexivity. Qed.

Lemma run_lit_nil c its : Re.run (Re.Lit c :: its) EmptyString = None.
Proof. reflexivity. Qed.

Ltac scan :=
  repeat first [ rewrite run_times_S | rewrite run_times_O | rewrite run_lit
               | rewrite run_times_nil | rewrite run_lit_nil ].

(** The scan of the pattern over a string, unrolled: fifteen class tests
    and then [$] on whatever is left. *)
Lemma valid_gstin_unroll (s : string) :
  valid_gstin s =
  match s with
  | String c1 (String c2 (String c3 (String c4 (String c5 (String c6
    (String c7 (String c8 (String c9 (String c10 (String c11 (String c12
    (String c13 (String c14 (String c15 rest)))))))))))))) =>
      gstin_form (string_of_list_ascii
        [c1; c2; c3; c4; c5; c6; c7; c8; c9; c10; c11; c12; c13; c14; c15])
      && Re.dollar rest
  | _ => false
  end.
Proof.
  unfold valid_gstin, Re.match_, pattern.
  do 15 (destruct s as [|? s];
    [ scan;
      repeat (match goal with
              | |- context [if ?b then _ else _] => destruct b
              end);
      reflexivity | ]).
  scan.
  rewrite mem_entity, mem_check.
  change (Re.mem digit) with is_digit. change (Re.mem upper) with is_upper.
  unfold gstin_form. cbn [list_ascii_of_string string_of_list_ascii Re.run].
  repeat (match goal with
          | |- context [if ?b then _ else _] =>
              destruct b; cbn [andb orb]; try reflexivity
          end).
Qed.

Lemma gstin_form_length (s : string) :
  gstin_form s = true -> String.length s = 15%nat.
Proof.
  unfold gstin_form.
  do 16 (destruct s as [|? s]; cbn [list_ascii_of_string]; try discriminate);
    reflexivity.
Qed.

Lemma valid_gstin_no_lf (s : string) :
  ends_with_lf s = false -> valid_gstin s = gstin_form s.
Proof.
  intros Hlf. rewrite valid_gstin_unroll.
  do 15 (destruct s as [|? s]; [reflexivity|]).
  destruct s as [|c s].
  - cbn [Re.dollar]. by rewrite andb_true_r.
  - transitivity false; [|reflexivity].
    apply andb_false_intro2.
    destruct s; [exact Hlf | reflexivity].
Qed.

(** ** The two scripts, step by step *)

Lemma purchase_key c : Purchase.KEY (Purchase.prepare c) = key_of c.
Proof. reflexivity. Qed.

Lemma b2b_key c : B2B.KEY (B2B.prepare c) = key_of c.
Proof. reflexivity. Qed.

Lemma bind_Ok {A B} (m : outcome A) (k : A -> outcome B) (b : B) :
  m ≫= k = Ok b -> exists a, m = Ok a /\ k a = Ok b.
Proof. destruct m as [a|e]; [eauto | discriminate]. Qed.

(** The two rename tables resolve every header alike: the extra entries of
    app.py map a name to itself. *)
Lemma rename_same (c : string) :
  rename App.rename_map c = rename App2.rename_map c.
Proof.
  unfold rename, App.rename_map, App2.rename_map.
  rewrite !list_to_map_cons, list_to_map_nil, !lookup_insert, !lookup_empty.
  repeat case_decide; subst; try reflexivity; congruence.
Qed.

Lemma resolve_same (t : Table) :
  resolve App.rename_map t = resolve App2.rename_map t.
Proof.
  unfold resolve. apply list_fmap_ext. intros. apply rename_same.
Qed.

Lemma complete_same (t : Table) :
  complete App.rename_map t <-> complete App2.rename_map t.
Proof. unfold complete. by rewrite resolve_same. Qed.

Lemma filter_eq_nil (col : string) (cols : list string) :
  col ∉ cols -> filter (fun c => c = col) cols = [].
Proof.
  intros Hn. destruct (filter _ cols) as [|y l] eqn:E; [done|].
  assert (y ∈ filter (fun c => c = col) cols) as Hy
    by (rewrite E; apply list_elem_of_here).
  apply list_elem_of_filter in Hy as [-> ?]. done.
Qed.

Lemma filter_eq_NoDup (col : string) (cols : list string) :
  NoDup cols -> col ∈ cols -> filter (fun c => c = col) cols = [col].
Proof.
  induction 1 as [|c cols Hc Hnd IH]; [by intros ?%elem_of_nil|].
  rewrite filter_cons. intros [->|Hin]%elem_of_cons.
  - rewrite decide_True by done. f_equal. by apply filter_eq_nil.
  - rewrite decide_False by (by intros ->). by apply IH.
Qed.

Lemma getcol_in col cols :
  NoDup cols -> col ∈ cols -> getcol col cols = Ok tt.
Proof. intros Hnd Hin. unfold getcol. by rewrite filter_eq_NoDup. Qed.

Lemma getcol_missing col cols :
  col ∉ cols -> getcol col cols = Err (KeyError col).
Proof.
  intros Hn. unfold getcol. by rewrite filter_eq_nil.
Qed.

Lemma getcol_Ok_in col cols u : getcol col cols = Ok u -> col ∈ cols.
Proof.
  intros H. destruct (decide (col ∈ cols)) as [|Hn]; [done|].
  by rewrite (getcol_missing _ _ Hn) in H.
Qed.

Lemma app_prepare_Ok p b x :
  App.prepare p b = Ok x ->
  x = (Purchase.prepare <$> rows p, B2B.prepare <$> rows b).
Proof.
  unfold App.prepare. intros H.
  repeat (apply bind_Ok in H as (? & _ & H)).
  congruence.
Qed.


Lemma app_run_Ok p b res :
  App.run p b = Ok res ->
  exists d, App.to_dict_index (B2B.prepare <$> rows b) = Ok d
            /\ res = App.results (App.float_taxes p b) d
                                 (Purchase.prepare <$> rows p).
Proof.
  unfold App.run. intros H.
  apply bind_Ok in H as ([P B] & Hp & H).
  apply app_prepare_Ok in Hp. injection Hp as -> ->.
  apply bind_Ok in H as (d & Hd & H).
  exists d. split; [done | congruence].
Qed.


Lemma to_dict_index_Ok l d :
  App.to_dict_index l = Ok d <-> NoDup (B2B.KEY <$> l) /\ d = build l.
Proof.
  unfold App.to_dict_index, build. case_decide; split.
  - intros [= <-]. done.
  - intros [_ ->]. done.
  - discriminate.
  - intros [? _]. done.
Qed.


Lemma build_lookup_Some l k r :
  build l !! k = Some r -> r ∈ l /\ B2B.KEY r = k.
Proof.
  unfold build. induction l as [|x l IH] using rev_ind.
  - cbn. by rewrite lookup_empty.
  - rewrite foldl_snoc, lookup_insert. case_decide as Hk.
    + intros [= ->]. split; [|done].
      apply elem_of_app. right. apply list_elem_of_here.
    + intros H. destruct (IH H). split; [|done].
      apply elem_of_app. by left.
Qed.

Lemma build_lookup_unique l r :
  NoDup (B2B.KEY <$> l) -> r ∈ l -> build l !! B2B.KEY r = Some r.
Proof.
  unfold build. induction l as [|x l IH] using rev_ind;
    [by intros _ ?%elem_of_nil|].
  rewrite fmap_app, foldl_snoc. cbn [fmap list_fmap].
  intros [Hl [Hx _]]%NoDup_app Hr.
  apply elem_of_app in Hr as [Hr | ->%list_elem_of_singleton].
  - rewrite lookup_insert_ne; [by apply IH|].
    intros Heq. apply (Hx (B2B.KEY x)); [|apply list_elem_of_here].
    rewrite Heq. by apply list_elem_of_fmap_2.
  - by rewrite lookup_insert_eq.
Qed.

Lemma build_lookup_None l k :
  (forall r, r ∈ l -> B2B.KEY r <> k) -> build l !! k = None.
Proof.
  intros H. destruct (build l !! k) as [r|] eqn:E; [|done].
  apply build_lookup_Some in E as [? ?]. naive_solver.
Qed.

Lemma validate_Ok cols pcols bcols :
  Forall (fun col => col ∈ pcols) cols ->
  Forall (fun col => col ∈ bcols) cols ->
  App2.validate cols pcols bcols = Ok tt.
Proof.
  induction cols as [|c cols IH]; [done|].
  rewrite !Forall_cons. intros [? ?] [? ?]. cbn.
  rewrite !decide_True by done. by apply IH.
Qed.

Lemma validate_Ok_inv cols pcols bcols u :
  App2.validate cols pcols bcols = Ok u ->
  Forall (fun col => col ∈ pcols) cols /\ Forall (fun col => col ∈ bcols) cols.
Proof.
  induction cols as [|c cols IH]; [done|]. cbn.
  repeat case_decide; try discriminate.
  intros [? ?]%IH. by rewrite !Forall_cons.
Qed.

(** A failed validation names a column that is really missing, and the
    workbook it is missing from. *)
Lemma validate_Err cols pcols bcols :
  ~ (Forall (fun col => col ∈ pcols) cols
     /\ Forall (fun col => col ∈ bcols) cols) ->
  exists col, col ∈ cols /\
    (((col ∉ pcols) /\
      App2.validate cols pcols bcols
      = Err (StStop ("❌ Missing column in Purchase File: " +:+ col)))
     \/ ((col ∉ bcols) /\
      App2.validate cols pcols bcols
      = Err (StStop ("❌ Missing column in 2B File: " +:+ col)))).
Proof.
  induction cols as [|c cols IH]; intros H.
  - destruct H. by split.
  - cbn. case_decide as Hp; [case_decide as Hb|].
    + destruct IH as (col & Hin & Hcol).
      { intros [? ?]. apply H. by rewrite !Forall_cons. }
      exists col. split; [by apply list_elem_of_further | done].
    + exists c. split; [apply list_elem_of_here|]. by right.
    + exists c. split; [apply list_elem_of_here|]. by left.
Qed.

Lemma app2_prepare_Ok p b x :
  App2.prepare p b = Ok x ->
  x = (Purchase.prepare <$> rows p, B2B.prepare <$> rows b).
Proof.
  unfold App2.prepare. intros H.
  repeat (apply bind_Ok in H as (? & _ & H)).
  congruence.
Qed.

Lemma app2_run_Ok p b res :
  App2.run p b = Ok res ->
  res = App2.results (Purchase.prepare <$> rows p) (B2B.prepare <$> rows b).
Proof.
  unfold App2.run. intros H.
  apply bind_Ok in H as ([P B] & Hp & H).
  apply app2_prepare_Ok in Hp. injection Hp as -> ->. congruence.
Qed.

Lemma app2_run_complete p b :
  regular p -> regular b ->
  complete App2.rename_map p -> complete App2.rename_map b ->
  App2.run p b
  = Ok (App2.results (Purchase.prepare <$> rows p)
                     (B2B.prepare <$> rows b)).
Proof.
  intros [Hnd _] [Hnd' _] Hp Hb. unfold App2.run, App2.prepare.
  rewrite (validate_Ok _ _ _ Hp Hb).
  revert Hp Hb. unfold complete, App2.required_cols.
  rewrite !Forall_cons.
  intros (Hg & Hn & Hd & Hc & Hs & Hi & _) (Hg' & Hn' & Hd' & Hc' & Hs' & Hi' & _).
  cbn [for_each]. rewrite !getcol_in by done. reflexivity.
Qed.

Lemma merge_bind P B : App2.merge P B = P ≫= (fun p => partners p B).
Proof. reflexivity. Qed.

Lemma merge_cons p P B :
  App2.merge (p :: P) B = partners p B ++ App2.merge P B.
Proof. reflexivity. Qed.

Lemma partners_left p B m : m ∈ partners p B -> App2.left m = p.
Proof.
  unfold partners.
  destruct (filter _ B) as [|r l].
  - by intros ->%list_elem_of_singleton.
  - intros (? & -> & _)%list_elem_of_fmap. done.
Qed.

Lemma partners_nonempty p B : partners p B <> [].
Proof. unfold partners. by destruct (filter _ B). Qed.

Lemma filter_key_unique (B : list B2B.row) k :
  NoDup (B2B.KEY <$> B) ->
  (length (filter (fun r => B2B.KEY r = k) B) <= 1)%nat.
Proof.
  induction B as [|x B IH]; [cbn; lia|].
  cbn [fmap list_fmap]. intros [Hx HB]%NoDup_cons.
  rewrite filter_cons. case_decide as Hk; [|by apply IH].
  assert (filter (fun r => B2B.KEY r = k) B = []) as ->; [|cbn; lia].
  destruct (filter _ B) as [|y l] eqn:E; [done|].
  assert (y ∈ filter (fun r => B2B.KEY r = k) B) as Hy
    by (rewrite E; apply list_elem_of_here).
  apply list_elem_of_filter in Hy as [Hy1 Hy2].
  destruct Hx. rewrite Hk, <- Hy1. by apply list_elem_of_fmap_2.
Qed.

Lemma partners_unique p B :
  NoDup (B2B.KEY <$> B) ->
  exists m, partners p B = [m] /\ App2.left m = p.
Proof.
  intros HB. pose proof (filter_key_unique B (Purchase.KEY p) HB) as Hlen.
  unfold partners.
  destruct (filter _ B) as [|r [|r' l]]; cbn in Hlen; [| |lia]; eauto.
Qed.

Lemma merge_unique P B :
  NoDup (B2B.KEY <$> B) ->
  Forall2 (fun m p => App2.left m = p) (App2.merge P B) P.
Proof.
  intros HB. induction P as [|p P IH]; [constructor|].
  rewrite merge_cons.
  destruct (partners_unique p B HB) as (m & -> & Hm).
  by constructor.
Qed.

Lemma elem_of_merge m P B :
  m ∈ App2.merge P B <-> exists p, p ∈ P /\ m ∈ partners p B.
Proof.
  rewrite merge_bind, list_elem_of_bind.
  split; intros (p & ? & ?); eauto.
Qed.


Lemma partners_None p B :
  (forall r, r ∈ B -> B2B.KEY r <> Purchase.KEY p) ->
  partners p B
  = [ {| App2.left := p; App2.CGST_2B := None;
         App2.SGST_2B := None; App2.IGST_2B := None |} ].
Proof.
  intros H. unfold partners.
  destruct (filter _ B) as [|y l] eqn:E; [done|].
  assert (y ∈ filter (fun r => B2B.KEY r = Purchase.KEY p) B) as Hy
    by (rewrite E; apply list_elem_of_here).
  apply list_elem_of_filter in Hy as [Hy1 Hy2]. by destruct (H y).
Qed.

Lemma app_results_describe fl d (l : list Cells) :
  Forall2 describes (App.results fl d (Purchase.prepare <$> l)) l.
Proof.
  unfold App.results. rewrite <- list_fmap_compose.
  apply Forall2_fmap_l, Forall_Forall2_diag, Forall_forall.
  intros c _. by repeat split.
Qed.

Lemma app2_results_describe (l : list Cells) B :
  NoDup (B2B.KEY <$> B) ->
  Forall2 describes (App2.results (Purchase.prepare <$> l) B) l.
Proof.
  intros HB. unfold App2.results. apply Forall2_fmap_l.
  pose proof (merge_unique (Purchase.prepare <$> l) B HB) as H.
  apply Forall2_fmap_r in H.
  eapply Forall2_impl; [exact H|].
  intros m c Hm. cbn in Hm. unfold describes, App2.classify. cbn.
  rewrite Hm. by repeat split.
Qed.

(** ** Counting *)

Lemma metric_occurrences s df :
  metric s df = occurrences s (Report.Status <$> df).
Proof.
  unfold metric, occurrences. induction df as [|r df IH]; [done|].
  cbn [fmap list_fmap]. rewrite !filter_cons.
  repeat case_decide; cbn [length]; congruence.
Qed.

Lemma value_counts_lookup (l : list string) (s : string) :
  value_counts l !! s
  = if decide (occurrences s l = 0%nat) then None else Some (occurrences s l).
Proof.
  unfold occurrences. induction l as [|v l IH]; [done|].
  cbn [value_counts foldr]. fold (value_counts l).
  rewrite lookup_insert, filter_cons.
  destruct (decide (v = s)) as [->|Hne].
  - cbn [length]. rewrite decide_False by lia.
    rewrite IH. by case_decide as H0; [rewrite H0|].
  - exact IH.
Qed.

Lemma row_total_insert (m : gmap string nat) (i : string) (x : nat) :
  (row_total (<[i:=x]> m) + default 0 (m !! i) = x + row_total m)%nat.
Proof.
  unfold row_total.
  assert (Hcomm : forall z1 z2 y : nat,
             (z1 + (z2 + y) = z2 + (z1 + y))%nat) by (intros; lia).
  destruct (m !! i) as [v|] eqn:E; cbn [default]; unfold id.
  - rewrite <- insert_delete_eq.
    rewrite map_fold_insert_L; [|intros; apply Hcomm|apply lookup_delete_eq].
    rewrite (map_fold_delete_L _ _ i v m); [|intros; apply Hcomm|done].
    lia.
  - rewrite map_fold_insert_L; [lia|intros; apply Hcomm|done].
Qed.

Lemma row_total_value_counts (l : list string) :
  row_total (value_counts l) = length l.
Proof.
  induction l as [|v l IH]; [done|].
  cbn [value_counts foldr length]. fold (value_counts l).
  pose proof (row_total_insert (value_counts l) v
                (S (default 0%nat (value_counts l !! v)))).
  lia.
Qed.

Lemma row_total_union_zeros (m z : gmap string nat) :
  (forall i v, z !! i = Some v -> v = 0%nat) ->
  row_total (m ∪ z) = row_total m.
Proof.
  induction z as [|i x z Hi IH] using map_ind; intros Hz.
  - by rewrite (right_id_L ∅ (∪)).
  - assert (x = 0%nat) as -> by (apply (Hz i); apply lookup_insert_eq).
    assert (row_total (m ∪ z) = row_total m) as IH'.
    { apply IH. intros j v Hj. apply (Hz j).
      rewrite lookup_insert_ne; [done|]. intros ->. congruence. }
    destruct (m !! i) as [v|] eqn:E.
    + assert (m ∪ <[i:=0%nat]> z = m ∪ z) as ->; [|done].
      apply map_eq. intros j. rewrite !lookup_union.
      destruct (decide (i = j)) as [<-|];
        [rewrite E, lookup_insert_eq, Hi | rewrite lookup_insert_ne by done];
        done.
    + rewrite <- insert_union_r by done.
      pose proof (row_total_insert (m ∪ z) i 0) as H.
      rewrite lookup_union, E, Hi in H. cbn in H. lia.
Qed.

Lemma groupby_status_lookup (df : list Report.row) (g : string) :
  groupby_status df !! g
  = match statuses_of g df with
    | [] => None
    | l => Some l
    end.
Proof.
  unfold statuses_of. induction df as [|r df IH]; [done|].
  cbn [groupby_status foldr]. fold (groupby_status df).
  rewrite lookup_insert, filter_cons.
  destruct (decide (Report.GSTIN r = g)) as [->|Hne].
  - cbn [fmap list_fmap]. rewrite IH. by destruct (Report.Status <$> filter _ df).
  - exact IH.
Qed.

Lemma vendor_summary_lookup (df : list Report.row) (g : string) :
  exists zeros : gmap string nat,
    (forall i v, zeros !! i = Some v -> v = 0%nat) /\
    vendor_summary df !! g
    = (fun l => value_counts l ∪ zeros) <$> groupby_status df !! g.
Proof.
  unfold vendor_summary, fillna0_frame, unstack.
  set (cols := ⋃ _).
  exists (gset_to_gmap 0%nat cols). split.
  - by intros i v [_ <-]%lookup_gset_to_gmap_Some.
  - rewrite !lookup_fmap. destruct (groupby_status df !! g) as [l|]; [|done].
    cbn. f_equal. apply map_eq. intros s.
    rewrite lookup_fmap, !lookup_union, lookup_fmap, !lookup_gset_to_gmap.
    destruct (value_counts l !! s), (guard (s ∈ cols)); reflexivity.
Qed.

(** ** Status and remark of a single row *)

Lemma app_status_remark_cases fl d (row : Purchase.row) :
  App.status_remark fl d row
  = if Purchase.GSTIN_Valid row then
      match d !! Purchase.KEY row with
      | None => ("Missing in 2B", "Invoice not available in GSTR-2B")
      | Some b =>
          if App.tax_diff row b =? 0 then ("Matched", "")
          else ("Mismatch",
                "Tax Difference = " +:+ pynum fl (App.tax_diff row b))
      end
    else ("Invalid GSTIN", "").
Proof.
  unfold App.status_remark.
  destruct (Purchase.GSTIN_Valid row); [|done].
  destruct (d !! Purchase.KEY row) as [b|]; [|done].
  cbn. by destruct (App.tax_diff row b =? 0).
Qed.

(** The masked assignments of app2.py amount to the same decision list,
    with remarks of their own. *)
Lemma app2_status_remark_cases (m : App2.merged) :
  App2.status_remark m
  = if Purchase.GSTIN_Valid (App2.left m) then
      match App2.CGST_2B m with
      | None => ("Missing in 2B", "Invoice not in 2B")
      | Some _ =>
          if App2.Tax_Diff m =? 0 then ("Matched", "")
          else ("Mismatch", "Tax Difference")
      end
    else ("Invalid GSTIN", "").
Proof.
  unfold App2.status_remark.
  destruct (Purchase.GSTIN_Valid (App2.left m)), (App2.CGST_2B m);
    cbn; destruct (App2.Tax_Diff m =? 0); reflexivity.
Qed.

(** Without a partner every [_2B] cell is NaN and the difference is 0. *)
Lemma app2_tax_diff_alone (p : Purchase.row) :
  App2.Tax_Diff {| App2.left := p; App2.CGST_2B := None;
                   App2.SGST_2B := None; App2.IGST_2B := None |} = 0.
Proof. reflexivity. Qed.

(** With a partner it is the sum of absolute differences of app.py. *)
Lemma app2_tax_diff_partner (p : Purchase.row) (b : B2B.row) :
  App2.Tax_Diff {| App2.left := p;
                   App2.CGST_2B := Some (B2B.CGST b);
                   App2.SGST_2B := Some (B2B.SGST b);
                   App2.IGST_2B := Some (B2B.IGST b) |}
  = App.tax_diff p b.
Proof. reflexivity. Qed.

Lemma append_cons (c : ascii) (a b : string) :
  String c a +:+ b = String c (a +:+ b).
Proof. reflexivity. Qed.






(** ** The GSTIN predicate *)

(** C5, counterexample: the specification's wording admits any alphanumeric
    thirteenth character; the pattern has [1-9A-Z] there and rejects 0. *)
Lemma valid_gstin_rejects_zero_entity :
  spec_gstin_form "27AAAPL1234C0Z5" = true
  /\ valid_gstin "27AAAPL1234C0Z5" = false.
Proof. split; reflexivity. Qed.

(** C5, as amended: on strings that do not end in a line feed, the
    predicate accepts exactly the strings of 15 characters made of 2 digits,
    5 uppercase letters, 4 digits, 1 uppercase letter, 1 character from
    1-9 or A-Z, the letter Z, and 1 character from 0-9 or A-Z.  It only
    tests: the GSTIN cell reaches the purchase row unchanged. *)
Theorem valid_gstin_accepts_form (s : string) :
  ends_with_lf s = false ->
  valid_gstin s = gstin_form s
  /\ (valid_gstin s = true -> String.length s = 15%nat)
  /\ (forall c, c_GSTIN c = s -> Purchase.GSTIN (Purchase.prepare c) = s).
Proof.
  intros Hlf. pose proof (valid_gstin_no_lf s Hlf) as H.
  split; [done|]. split; [|by intros c <-].
  rewrite H. apply gstin_form_length.
Qed.

Lemma valid_gstin_accepts_form_witness :
  valid_gstin "27AAAPL1234C1Z5" = true
  /\ (valid_gstin "27AAAPL1234C1Z5" = gstin_form "27AAAPL1234C1Z5"
      /\ (valid_gstin "27AAAPL1234C1Z5" = true ->
          String.length "27AAAPL1234C1Z5" = 15%nat)
      /\ (forall c, c_GSTIN c = "27AAAPL1234C1Z5" ->
          Purchase.GSTIN (Purchase.prepare c) = "27AAAPL1234C1Z5")).
Proof.
  split; [reflexivity|].
  apply (valid_gstin_accepts_form "27AAAPL1234C1Z5"). reflexivity.
Defined.

(** [$] also matches before a final line feed: a sixteen character string
    made of a well formed GSTIN and a line feed passes. *)
Lemma valid_gstin_trailing_lf :
  valid_gstin ("27AAAPL1234C1Z5" +:+ String "010" "") = true
  /\ String.length ("27AAAPL1234C1Z5" +:+ String "010" "") = 16%nat.
Proof. split; reflexivity. Qed.

(** ** Join keys *)

(** C10: the key is not injective.  The pairs ("27A", "B_C") and
    ("27A_B", "C") give the same key, the lookup built from the second
    answers for the first, and a purchase row with a well formed GSTIN is
    reported Matched against a reference row whose GSTIN and invoice number
    both differ from its own, by either script. *)
Theorem make_key_not_injective :
  make_key "27A" "B_C" = make_key "27A_B" "C"
  /\ ("27A", "B_C") <> ("27A_B", "C")
  /\ build [B2B.prepare (cells "27A_B" "C" 1 2 3)]
       !! Purchase.KEY (Purchase.prepare (cells "27A" "B_C" 1 2 3))
     = Some (B2B.prepare (cells "27A_B" "C" 1 2 3))
  /\ exists p r : Cells,
       c_GSTIN p <> c_GSTIN r
       /\ c_Invoice_Number p <> c_Invoice_Number r
       /\ valid_gstin (c_GSTIN p) = true
       /\ (exists row, App.run (book [p]) (book [r]) = Ok [row]
                       /\ Report.Status row = "Matched")
       /\ (exists row, App2.run (book [p]) (book [r]) = Ok [row]
                       /\ Report.Status row = "Matched").
Proof.
  split; [reflexivity|]. split; [discriminate|]. split; [by vm_compute|].
  exists (cells "27AAAPL1234C1Z5" "A_B" 100 100 0),
         (cells "27AAAPL1234C1Z5_A" "B" 100 100 0).
  split; [discriminate|]. split; [discriminate|]. split; [reflexivity|].
  split; eexists; (split; [vm_compute; reflexivity | reflexivity]).
Qed.

(** ** Precedence of the GSTIN check *)



(** ** Rows of the report and the purchase rows they come from *)

Lemma describes_prepare (row : Report.row) (c c' : Cells) :
  describes row c -> describes row c' ->
  Purchase.prepare c = Purchase.prepare c'.
Proof.
  intros (Hg & Hn & Hd & Hc & Hs & Hi) (Hg' & Hn' & Hd' & Hc' & Hs' & Hi').
  unfold Purchase.prepare. f_equal; congruence.
Qed.

Lemma app_classify_describes fl d c :
  describes (App.classify fl d (Purchase.prepare c)) c.
Proof. by repeat split. Qed.

Lemma app2_classify_describes m c :
  App2.left m = Purchase.prepare c -> describes (App2.classify m) c.
Proof.
  intros H. unfold describes, App2.classify. cbn. rewrite H. by repeat split.
Qed.

(** Rows of app.py's report that carry the cells of [c] are the
    classification of [c] itself. *)
Lemma app_row_of fl d (l : list Cells) row c :
  row ∈ App.results fl d (Purchase.prepare <$> l) -> describes row c ->
  row = App.classify fl d (Purchase.prepare c).
Proof.
  unfold App.results.
  intros (p & -> & (c' & -> & _)%list_elem_of_fmap)%list_elem_of_fmap Hd.
  by rewrite (describes_prepare _ _ _ (app_classify_describes fl d c') Hd).
Qed.

(** Rows of app2.py's report that carry the cells of [c] classify a merged
    row whose purchase side is [c]. *)
Lemma app2_row_of (l : list Cells) B row c :
  row ∈ App2.results (Purchase.prepare <$> l) B -> describes row c ->
  exists m, m ∈ partners (Purchase.prepare c) B
            /\ row = App2.classify m.
Proof.
  unfold App2.results. intros (m & -> & Hm)%list_elem_of_fmap Hd.
  apply elem_of_merge in Hm as (p & Hp & Hm).
  apply list_elem_of_fmap in Hp as (c' & -> & _).
  pose proof (partners_left _ _ _ Hm) as Hl.
  rewrite (describes_prepare _ _ _ (app2_classify_describes m c' Hl) Hd) in Hm.
  eauto.
Qed.

Lemma app2_row_in (l : list Cells) B c m :
  c ∈ l -> m ∈ partners (Purchase.prepare c) B ->
  App2.classify m ∈ App2.results (Purchase.prepare <$> l) B.
Proof.
  intros Hc Hm. apply list_elem_of_fmap_2, elem_of_merge.
  exists (Purchase.prepare c). split; [by apply list_elem_of_fmap_2 | done].
Qed.

Lemma elem_of_partners_inv p B m :
  m ∈ partners p B ->
  (m = {| App2.left := p; App2.CGST_2B := None;
          App2.SGST_2B := None; App2.IGST_2B := None |}
   /\ forall r, r ∈ B -> B2B.KEY r <> Purchase.KEY p)
  \/ exists r, r ∈ B /\ B2B.KEY r = Purchase.KEY p
               /\ m = {| App2.left := p;
                         App2.CGST_2B := Some (B2B.CGST r);
                         App2.SGST_2B := Some (B2B.SGST r);
                         App2.IGST_2B := Some (B2B.IGST r) |}.
Proof.
  unfold partners.
  destruct (filter _ B) as [|y l] eqn:E.
  - intros ->%list_elem_of_singleton. left. split; [done|].
    intros r Hr Hk.
    eapply (filter_nil_not_elem_of _ _ r E); done.
  - intros (r & -> & Hr)%list_elem_of_fmap. right.
    rewrite <- E in Hr. apply list_elem_of_filter in Hr as [? ?]. eauto.
Qed.

Lemma app_tax_diff_prepare c r :
  App.tax_diff (Purchase.prepare c) (B2B.prepare r) = diff_of c r.
Proof. reflexivity. Qed.

Lemma abs_sum_zero (a b c : Z) :
  Z.abs a + Z.abs b + Z.abs c = 0 <-> a = 0 /\ b = 0 /\ c = 0.
Proof. lia. Qed.

Lemma abs_sum_nonneg (a b c : Z) : 0 <= Z.abs a + Z.abs b + Z.abs c.
Proof. lia. Qed.

(** ** Matched or Mismatch *)



(** With exact amounts the tax difference stays below 2^53, the range in
    which float64 holds every whole number. *)
Lemma exact_diff_bound (purchase_file b2b_file : Table) (c r : Cells) :
  exact purchase_file -> exact b2b_file ->
  c ∈ rows purchase_file -> r ∈ rows b2b_file ->
  0 <= diff_of c r < 2 ^ 53.
Proof.
  unfold exact, exact_cell. rewrite !Forall_forall. intros Hp Hb Hc Hr.
  destruct (Hp c Hc) as (? & ? & ?). destruct (Hb r Hr) as (? & ? & ?).
  unfold diff_of.
  change (2 ^ 50) with 1125899906842624 in *.
  change (2 ^ 53) with 9007199254740992. lia.
Qed.




(** ** Missing in 2B *)

(** C6, counterexample: scenario 1 run through app2.py.  The status is
    "Missing in 2B" but the remark reads "Invoice not in 2B". *)
Lemma app2_missing_remark :
  exists row,
    App2.run (book [p1]) (book []) = Ok [row]
    /\ valid_gstin (c_GSTIN p1) = true
    /\ Report.Status row = "Missing in 2B"
    /\ Report.Remark row = "Invoice not in 2B"
    /\ Report.Remark row <> "Invoice not available in GSTR-2B".
Proof. eexists. split; [vm_compute; reflexivity|]. by repeat split. Qed.

(** C6, as amended: a purchase row with a well formed GSTIN whose join key
    no reference row has is reported with status "Missing in 2B"; the
    remark is "Invoice not available in GSTR-2B" in app.py and
    "Invoice not in 2B" in app2.py. *)
Theorem missing_in_2b (purchase_file b2b_file : Table) (c : Cells) :
  c ∈ rows purchase_file ->
  valid_gstin (c_GSTIN c) = true ->
  (forall r, r ∈ rows b2b_file -> key_of r <> key_of c) ->
  (forall res, App.run purchase_file b2b_file = Ok res ->
     (exists row, row ∈ res /\ describes row c)
     /\ forall row, row ∈ res -> describes row c ->
          Report.Status row = "Missing in 2B"
          /\ Report.Remark row = "Invoice not available in GSTR-2B")
  /\ (forall res, App2.run purchase_file b2b_file = Ok res ->
     (exists row, row ∈ res /\ describes row c)
     /\ forall row, row ∈ res -> describes row c ->
          Report.Status row = "Missing in 2B"
          /\ Report.Remark row = "Invoice not in 2B").
Proof.
  intros Hc Hv Hno.
  assert (forall r0, r0 ∈ B2B.prepare <$> rows b2b_file ->
                     B2B.KEY r0 <> key_of c) as Hno'.
  { intros r0 (r & -> & Hr)%list_elem_of_fmap. rewrite b2b_key. by apply Hno. }
  split.
  - intros res (d & Hd & ->)%app_run_Ok.
    apply to_dict_index_Ok in Hd as [_ ->]. split.
    + exists (App.classify (App.float_taxes purchase_file b2b_file) (build (B2B.prepare <$> rows b2b_file))
                           (Purchase.prepare c)).
      split; [|apply app_classify_describes].
      by apply list_elem_of_fmap_2, list_elem_of_fmap_2.
    + intros row Hrow Hdesc. rewrite (app_row_of _ _ _ _ _ Hrow Hdesc).
      unfold App.classify. cbn [Report.Status Report.Remark].
      rewrite app_status_remark_cases.
      cbn [Purchase.GSTIN_Valid Purchase.KEY Purchase.prepare].
      fold (key_of c). by rewrite Hv, (build_lookup_None _ _ Hno').
  - intros res ->%app2_run_Ok.
    pose proof (partners_None (Purchase.prepare c)
                  (B2B.prepare <$> rows b2b_file) Hno') as Hp.
    split.
    + eexists. split.
      * apply (app2_row_in _ _ c); [done|]. rewrite Hp. apply list_elem_of_here.
      * by apply app2_classify_describes.
    + intros row Hrow Hdesc.
      destruct (app2_row_of _ _ _ _ Hrow Hdesc) as (m & Hm & ->).
      rewrite Hp in Hm. apply list_elem_of_singleton in Hm as ->.
      unfold App2.classify. cbn [Report.Status Report.Remark].
      rewrite app2_status_remark_cases.
      cbn [App2.left App2.CGST_2B Purchase.GSTIN_Valid Purchase.prepare].
      by rewrite Hv.
Qed.

Lemma missing_in_2b_witness :
  (exists res, App.run (book [p1]) (book [r_other]) = Ok res
               /\ Report.Status <$> res = ["Missing in 2B"])
  /\ (exists res, App2.run (book [p1]) (book [r_other]) = Ok res
                  /\ Report.Status <$> res = ["Missing in 2B"])
  /\ (forall res, App.run (book [p1]) (book [r_other]) = Ok res ->
       (exists row, row ∈ res /\ describes row p1)
       /\ forall row, row ∈ res -> describes row p1 ->
            Report.Status row = "Missing in 2B"
            /\ Report.Remark row = "Invoice not available in GSTR-2B")
  /\ (forall res, App2.run (book [p1]) (book [r_other]) = Ok res ->
       (exists row, row ∈ res /\ describes row p1)
       /\ forall row, row ∈ res -> describes row p1 ->
            Report.Status row = "Missing in 2B"
            /\ Report.Remark row = "Invoice not in 2B").
Proof.
  split; [eexists; split; [vm_compute; reflexivity | reflexivity]|].
  split; [eexists; split; [vm_compute; reflexivity | reflexivity]|].
  apply (missing_in_2b (book [p1]) (book [r_other]) p1).
  - apply list_elem_of_here.
  - reflexivity.
  - intros r ->%list_elem_of_singleton. discriminate.
Defined.

(** ** One report row per purchase row *)

Lemma b2b_keys (l : list Cells) :
  B2B.KEY <$> (B2B.prepare <$> l) = key_of <$> l.
Proof. by rewrite <- list_fmap_compose. Qed.




(** ** Reference rows that share a join key *)






(** ** Missing columns *)

(** app2.py, lines 68-76: when a required column cannot be resolved in one
    of the workbooks, the run stops before any row is classified, with a
    message that names a column that is really missing and the workbook it
    is missing from. *)
Lemma app2_schema_error (purchase_file b2b_file : Table) :
  ~ (complete App2.rename_map purchase_file
     /\ complete App2.rename_map b2b_file) ->
  exists col, col ∈ App2.required_cols /\
    (((col ∉ resolve App2.rename_map purchase_file) /\
      App2.run purchase_file b2b_file
      = Err (StStop ("❌ Missing column in Purchase File: " +:+ col)))
     \/ ((col ∉ resolve App2.rename_map b2b_file) /\
      App2.run purchase_file b2b_file
      = Err (StStop ("❌ Missing column in 2B File: " +:+ col)))).
Proof.
  intros H. apply validate_Err in H as (col & Hin & H).
  exists col. split; [done|]. unfold App2.run, App2.prepare.
  destruct H as [[? ->]|[? ->]]; [left | right]; done.
Qed.

Ltac missing col :=
  exists col; split; [apply (bool_decide_unpack _); vm_compute; exact I|];
  split; [discriminate|]; split; [reflexivity|]; by (left + right).

(** One column access of the preparation: present, or missing. *)
Ltac column col cols Hnd :=
  let H := fresh "Hcol" in
  destruct (decide (col ∈ cols)) as [H|H];
  [ rewrite (getcol_in col cols Hnd H)
  | rewrite (getcol_missing col cols H); missing col ].

(** app.py: a missing required column always ends the run without a
    report, but only the date column is announced with the name of the
    workbook; any other missing column surfaces as the [KeyError] of its
    first use, which names the column alone. *)
Lemma app_missing_column (purchase_file b2b_file : Table) :
  regular purchase_file -> regular b2b_file ->
  ~ (complete App.rename_map purchase_file
     /\ complete App.rename_map b2b_file) ->
  App.run purchase_file b2b_file
  = Err (StStop "❌ Invoice Date column not found in Purchase Excel")
  \/ App.run purchase_file b2b_file
     = Err (StStop "❌ Invoice Date column not found in GSTR-2B Excel")
  \/ exists col, col ∈ App2.required_cols /\ col <> "Invoice_Date"
       /\ App.run purchase_file b2b_file = Err (KeyError col)
       /\ ((col ∉ resolve App.rename_map purchase_file)
           \/ (col ∉ resolve App.rename_map b2b_file)).
Proof.
  intros [HP _] [HB _]. rewrite <- resolve_same in HP, HB.
  unfold complete, App2.required_cols. rewrite !Forall_cons.
  intros H. unfold App.run, App.prepare, App.check_date.
  cbn [for_each].
  set (P := resolve App.rename_map purchase_file) in *.
  set (B := resolve App.rename_map b2b_file) in *.
  destruct (decide ("Invoice_Date" ∈ P)) as [HdP|]; [|by left].
  rewrite (getcol_in _ _ HP HdP).
  destruct (decide ("Invoice_Date" ∈ B)) as [HdB|]; [|by right; left].
  rewrite (getcol_in _ _ HB HdB).
  right; right.
  column "CGST" P HP. column "CGST" B HB.
  column "SGST" P HP. column "SGST" B HB.
  column "IGST" P HP. column "IGST" B HB.
  column "GSTIN" P HP. column "Invoice_Number" P HP.
  column "GSTIN" B HB. column "Invoice_Number" B HB.
  destruct H. by repeat split.
Qed.

Lemma check_date_Ok cols shown u :
  App.check_date cols shown = Ok u -> "Invoice_Date" ∈ cols.
Proof. unfold App.check_date. by case_decide. Qed.

(** Takes a successful sequence of column accesses apart. *)
Ltac unbind H :=
  match type of H with
  | _ ≫= _ = Ok _ =>
      let u := fresh "u" in
      let Hu := fresh "Hu" in
      apply bind_Ok in H as (u & Hu & H); unbind Hu; unbind H
  | getcol _ _ = Ok _ => apply getcol_Ok_in in H
  | App.check_date _ _ = Ok _ => apply check_date_Ok in H
  | _ => idtac
  end.

(** A run that yields a report has found the six columns in both
    workbooks. *)
Lemma app_run_Ok_complete (purchase_file b2b_file : Table) res :
  App.run purchase_file b2b_file = Ok res ->
  complete App.rename_map purchase_file
  /\ complete App.rename_map b2b_file.
Proof.
  unfold App.run. intros H. apply bind_Ok in H as (x & H & _).
  unfold App.prepare in H. cbn [for_each] in H. unbind H.
  unfold complete, App2.required_cols. rewrite !Forall_cons.
  by repeat split.
Qed.

Lemma app2_run_Ok_complete (purchase_file b2b_file : Table) res :
  App2.run purchase_file b2b_file = Ok res ->
  complete App2.rename_map purchase_file
  /\ complete App2.rename_map b2b_file.
Proof.
  unfold App2.run, App2.prepare. intros H.
  apply bind_Ok in H as (x & H & _).
  apply bind_Ok in H as (u & H & _).
  by apply validate_Ok_inv in H.
Qed.

(** C7: a purchase workbook without the CGST column.  app2.py stops with a
    message that names the column and the workbook; app.py runs into the
    [KeyError] of line 93, which names the column only. *)
Theorem missing_cgst_column :
  ~ complete App.rename_map no_cgst
  /\ App.run no_cgst (book [r_same]) = Err (KeyError "CGST")
  /\ App2.run no_cgst (book [r_same])
     = Err (StStop "❌ Missing column in Purchase File: CGST").
Proof.
  split; [|split]; [|by vm_compute..].
  apply (bool_decide_unpack _). vm_compute. exact I.
Qed.

(** ** Status counts *)

(** C8, counterexample: scenario 2.  The only report row is Matched, and
    the status counts of either script hold no entry for "Mismatch"
    (nor for any other status than "Matched"). *)
Lemma status_counts_omit_absent :
  exists res,
    App.run (book [p1]) (book [r_same]) = Ok res
    /\ App2.run (book [p1]) (book [r_same]) = Ok res
    /\ App.report res = Ok (dashboard res)
    /\ Status_Distribution (dashboard res) !! "Matched" = Some 1%nat
    /\ Status_Distribution (dashboard res) !! "Mismatch" = None
    /\ Status_Distribution (dashboard res) !! "Missing in 2B" = None
    /\ Status_Distribution (dashboard res) !! "Invalid GSTIN" = None.
Proof.
  eexists. split; [vm_compute; reflexivity|]. by repeat split.
Qed.

(** C8, as amended: the status counts ([value_counts] of the Status column)
    hold an entry exactly for the statuses that occur in at least one
    report row, with the number of such rows; a status without rows has no
    entry, and no entry is 0.  The KPI figures for Matched, Missing in 2B
    and Mismatch are counted separately and are 0 for a status without
    rows. *)
Theorem status_counts_entries (df : list Report.row) (s : string) :
  let counts := Status_Distribution (dashboard df) in
  (counts !! s = None <-> metric s df = 0%nat)
  /\ (forall n, counts !! s = Some n <-> n = metric s df /\ n <> 0%nat)
  /\ Matched (dashboard df) = metric "Matched" df
  /\ Missing (dashboard df) = metric "Missing in 2B" df
  /\ Mismatch (dashboard df) = metric "Mismatch" df
  /\ (metric s df = 0%nat <-> forall r, r ∈ df -> Report.Status r <> s).
Proof.
  cbn [dashboard Status_Distribution Matched Missing Mismatch].
  rewrite value_counts_lookup, <- metric_occurrences.
  split; [|split; [|split; [done|split; [done|split; [done|split]]]]].
  - case_decide; [done|]. split; [discriminate | done].
  - intros n. case_decide as E.
    + split; [discriminate|]. by intros [-> ?].
    + split; [by intros [= <-] | by intros [-> _]].
  - intros H0 r Hr Hs. unfold metric in H0.
    apply length_zero_iff_nil in H0.
    eapply (filter_nil_not_elem_of _ _ r H0); done.
  - intros H. unfold metric.
    destruct (filter _ df) as [|y l] eqn:E; [done|].
    assert (y ∈ filter (fun r => Report.Status r = s) df) as Hy
      by (rewrite E; apply list_elem_of_here).
    apply list_elem_of_filter in Hy as [? ?]. by destruct (H y).
Qed.

(** ** Vendor summary *)

Lemma describes_count g res l :
  Forall2 describes res l -> reported_of g res = purchases_of g l.
Proof.
  unfold reported_of, purchases_of.
  induction 1 as [|r c res l Hd _ IH]; [done|].
  destruct Hd as (Hg & _). rewrite !filter_cons, Hg.
  case_decide; cbn [length]; congruence.
Qed.

Lemma vendor_summary_row (df : list Report.row) (g : string) :
  (is_Some (vendor_summary df !! g) <-> g ∈ Report.GSTIN <$> df)
  /\ forall row, vendor_summary df !! g = Some row ->
                 row_total row = reported_of g df.
Proof.
  destruct (vendor_summary_lookup df g) as (zeros & Hz & ->).
  rewrite groupby_status_lookup. unfold statuses_of, reported_of.
  destruct (filter (fun r => Report.GSTIN r = g) df) as [|y l] eqn:E.
  - cbn. split; [|done]. split; [by intros [? ?]|].
    intros (r & -> & Hr)%list_elem_of_fmap.
    by destruct (filter_nil_not_elem_of _ _ r E).
  - cbn [fmap list_fmap option_fmap option_map]. split.
    + split; [|by eauto]. intros _.
      assert (y ∈ filter (fun r => Report.GSTIN r = g) df) as Hy
        by (rewrite E; apply list_elem_of_here).
      apply list_elem_of_filter in Hy as [<- ?]. by apply list_elem_of_fmap_2.
    + intros row [= <-].
      change (row_total (value_counts (Report.Status <$> y :: l) ∪ zeros)
              = length (y :: l)).
      rewrite row_total_union_zeros, row_total_value_counts by done.
      by rewrite length_fmap.
Qed.

Lemma report_rows p b res :
  App.run p b = Ok res \/ App2.run p b = Ok res ->
  (forall r, r ∈ res -> exists c, c ∈ rows p /\ describes r c)
  /\ (forall c, c ∈ rows p -> exists r, r ∈ res /\ describes r c).
Proof.
  intros [H|H].
  - apply app_run_Ok in H as (d & _ & ->). unfold App.results. split.
    + intros r (row & -> & (c & -> & Hc)%list_elem_of_fmap)%list_elem_of_fmap.
      exists c. split; [done | apply app_classify_describes].
    + intros c Hc. exists (App.classify (App.float_taxes p b) d (Purchase.prepare c)). split.
      * by apply list_elem_of_fmap_2, list_elem_of_fmap_2.
      * apply app_classify_describes.
  - apply app2_run_Ok in H as ->. unfold App2.results. split.
    + intros r (m & -> & Hm)%list_elem_of_fmap.
      apply elem_of_merge in Hm as (p0 & Hp & Hm).
      apply list_elem_of_fmap in Hp as (c & -> & Hc).
      apply partners_left in Hm.
      exists c. split; [done | by apply app2_classify_describes].
    + intros c Hc.
      destruct (partners (Purchase.prepare c)
                  (B2B.prepare <$> rows b)) as [|m l] eqn:E;
        [by apply partners_nonempty in E|].
      assert (m ∈ partners (Purchase.prepare c)
                    (B2B.prepare <$> rows b)) as Hm
        by (rewrite E; apply list_elem_of_here).
      exists (App2.classify m). split.
      * by apply (app2_row_in _ _ c).
      * apply partners_left in Hm.
        by apply app2_classify_describes.
Qed.

Lemma reported_gstins p b res :
  App.run p b = Ok res \/ App2.run p b = Ok res ->
  forall g, g ∈ Report.GSTIN <$> res <-> g ∈ c_GSTIN <$> rows p.
Proof.
  intros H g.
  destruct (report_rows p b res H) as [Hback Hforth].
  split.
  - intros (r & -> & Hr)%list_elem_of_fmap.
    destruct (Hback r Hr) as (c & Hc & (-> & _)). by apply list_elem_of_fmap_2.
  - intros (c & -> & Hc)%list_elem_of_fmap.
    destruct (Hforth c Hc) as (r & Hr & (<- & _)). by apply list_elem_of_fmap_2.
Qed.

(** C9, counterexample: one purchase row of a vendor, two reference rows
    with its join key.  app2.py's Vendor Summary row for that vendor sums
    to 2, the number of merged rows, where the vendor has 1 purchase row. *)
Lemma vendor_summary_counts_merged_rows :
  exists res row,
    App2.run (book [p1]) (book [r_90; r_same]) = Ok res
    /\ Vendor_Summary (App2.report res) !! "27AAAPL1234C1Z5" = Some row
    /\ row_total row = 2%nat
    /\ purchases_of "27AAAPL1234C1Z5" (rows (book [p1])) = 1%nat.
Proof.
  eexists. eexists. split; [vm_compute; reflexivity|].
  split; [vm_compute; reflexivity|]. split; by vm_compute.
Qed.

Lemma filtered_df_unfiltered (df : list Report.row) (sb : Sidebar) :
  vendor_filter sb = [] -> status_filter sb = [] ->
  length (date_range sb) <> 2%nat ->
  filtered_df df sb = df.
Proof.
  intros Hv Hs Hd. unfold filtered_df. rewrite Hv, Hs.
  by destruct (date_range sb) as [|d0 [|d1 [|d2 l]]].
Qed.

(** C9, as amended: the Vendor Summary has a row for a GSTIN exactly when
    that GSTIN appears among the report rows the summary is built from,
    and the counts of a row sum to the number of those rows with that
    GSTIN.  app.py builds the summary from the whole report: it has a row
    exactly for the GSTINs of the purchase workbook (so a vendor of the
    reference workbook alone has none), whose counts sum to the vendor's
    number of purchase rows; it is shown only when there is at least one
    purchase row.  app2.py builds it from the rows that pass the sidebar
    filters: a vendor all of whose rows are filtered out has no row, and
    only with no filter set does every GSTIN of the purchase workbook have
    one; its counts then sum to the vendor's number of purchase rows when
    no two reference rows share a join key. *)
Theorem vendor_summary_conservation
    (purchase_file b2b_file : Table) (res : list Report.row)
    (sb : Sidebar) (g : string) :
  (App.run purchase_file b2b_file = Ok res ->
   (is_Some (Vendor_Summary (dashboard res) !! g)
    <-> g ∈ c_GSTIN <$> rows purchase_file)
   /\ (forall row, Vendor_Summary (dashboard res) !! g = Some row ->
         row_total row = purchases_of g (rows purchase_file))
   /\ (rows purchase_file <> [] -> App.report res = Ok (dashboard res)))
  /\ (App2.run purchase_file b2b_file = Ok res ->
      (is_Some (Vendor_Summary (view res sb) !! g)
       <-> g ∈ Report.GSTIN <$> filtered_df res sb)
      /\ (forall row, Vendor_Summary (view res sb) !! g = Some row ->
            row_total row = reported_of g (filtered_df res sb))
      /\ (vendor_filter sb = [] -> status_filter sb = [] ->
          length (date_range sb) <> 2%nat ->
          (is_Some (Vendor_Summary (view res sb) !! g)
           <-> g ∈ c_GSTIN <$> rows purchase_file)
          /\ (NoDup (key_of <$> rows b2b_file) ->
              forall row, Vendor_Summary (view res sb) !! g = Some row ->
                row_total row = purchases_of g (rows purchase_file)))).
Proof.
  split; intros H.
  - cbn [dashboard Vendor_Summary].
    destruct (vendor_summary_row res g) as [Hdom Hsum].
    split; [|split].
    + rewrite Hdom. apply (reported_gstins purchase_file b2b_file). by left.
    + intros row Hrow. rewrite (Hsum row Hrow). apply describes_count.
      apply app_run_Ok in H as (d & _ & ->). apply app_results_describe.
    + apply app_run_Ok in H as (d & _ & ->). intros Hne.
      by destruct (rows purchase_file).
  - unfold view. cbn [dashboard Vendor_Summary].
    destruct (vendor_summary_row (filtered_df res sb) g) as [Hdom Hsum].
    split; [done|]. split; [done|].
    intros Hv Hs Hd.
    rewrite (filtered_df_unfiltered res sb Hv Hs Hd) in *.
    split.
    + rewrite Hdom. apply (reported_gstins purchase_file b2b_file).
      by right.
    + intros Hnd row Hrow. rewrite (Hsum row Hrow). apply describes_count.
      apply app2_run_Ok in H as ->.
      apply app2_results_describe. by rewrite b2b_keys.
Qed.

Lemma vendor_summary_conservation_witness :
  exists res,
    App2.run (book [p1; p_bad; p1]) (book [r_other; r_90]) = Ok res
    /\ Vendor_Summary
         (view res {| vendor_filter := []; status_filter := ["Mismatch"];
                      date_range := [] |})
       = {[ "27AAAPL1234C1Z5" := {[ "Mismatch" := 2%nat ]} ]}
    /\ (is_Some (Vendor_Summary
                   (view res {| vendor_filter := [];
                                status_filter := ["Mismatch"];
                                date_range := [] |}) !! "INVALID123")
        <-> "INVALID123"
            ∈ Report.GSTIN
                <$> filtered_df res {| vendor_filter := [];
                                       status_filter := ["Mismatch"];
                                       date_range := [] |})
    /\ "INVALID123" ∈ c_GSTIN <$> rows (book [p1; p_bad; p1]).
Proof.
  eexists. split; [vm_compute; reflexivity|].
  split; [by vm_compute|]. split.
  - refine (proj1 (proj2 (vendor_summary_conservation
                            (book [p1; p_bad; p1]) (book [r_other; r_90])
                            _ {| vendor_filter := [];
                                 status_filter := ["Mismatch"];
                                 date_range := [] |} "INVALID123") _)).
    vm_compute. reflexivity.
  - apply (bool_decide_unpack _). vm_compute. exact I.
Defined.

(** * Further properties of the two scripts *)

(** ** How a report row came about *)

Lemma app_row_verdict p b res row :
  App.run p b = Ok res -> row ∈ res ->
  verdict "Invoice not available in GSTR-2B"
          (fun d => "Tax Difference = " +:+ pynum (App.float_taxes p b) d)
          b row.
Proof.
  intros (d & Hd & ->)%app_run_Ok Hrow.
  apply to_dict_index_Ok in Hd as [Hnd ->].
  unfold App.results in Hrow.
  apply list_elem_of_fmap in Hrow as (p0 & -> & Hp0).
  apply list_elem_of_fmap in Hp0 as (c & -> & Hc).
  unfold verdict, App.classify, row_key, diff_to.
  cbn [Report.GSTIN Report.Invoice_Number Report.Status Report.Remark
       Report.CGST Report.SGST Report.IGST Purchase.prepare
       Purchase.GSTIN Purchase.Invoice_Number Purchase.CGST Purchase.SGST
       Purchase.IGST].
  fold (key_of c). rewrite app_status_remark_cases.
  cbn [Purchase.GSTIN_Valid Purchase.KEY Purchase.prepare]. fold (key_of c).
  destruct (valid_gstin (c_GSTIN c)); [|by left].
  destruct (build (B2B.prepare <$> rows b) !! key_of c) as [b0|] eqn:E.
  - apply build_lookup_Some in E as [Hb0 Hk].
    apply list_elem_of_fmap in Hb0 as (r & -> & Hr). rewrite b2b_key in Hk.
    rewrite app_tax_diff_prepare. unfold diff_of.
    destruct (Z.eqb_spec
                (Z.abs (fillna0 (c_CGST c) - fillna0 (c_CGST r))
                 + Z.abs (fillna0 (c_SGST c) - fillna0 (c_SGST r))
                 + Z.abs (fillna0 (c_IGST c) - fillna0 (c_IGST r))) 0).
    + right; right; left. split; [done|]. exists r. by repeat split.
    + right; right; right. split; [done|]. exists r. by repeat split.
  - right; left. split; [done|]. split; [|done].
    intros r Hr Hk.
    assert (build (B2B.prepare <$> rows b) !! B2B.KEY (B2B.prepare r)
            = Some (B2B.prepare r)) as Hl
      by (by apply build_lookup_unique, list_elem_of_fmap_2).
    rewrite b2b_key, Hk in Hl. congruence.
Qed.

Lemma app2_row_verdict p b res row :
  App2.run p b = Ok res -> row ∈ res ->
  verdict "Invoice not in 2B" (fun _ => "Tax Difference") b row.
Proof.
  intros ->%app2_run_Ok Hrow. unfold App2.results in Hrow.
  apply list_elem_of_fmap in Hrow as (m & -> & Hm).
  apply elem_of_merge in Hm as (p0 & Hp0 & Hm).
  apply list_elem_of_fmap in Hp0 as (c & -> & Hc).
  unfold verdict, App2.classify, row_key, diff_to.
  cbn [Report.GSTIN Report.Invoice_Number Report.Status Report.Remark
       Report.CGST Report.SGST Report.IGST].
  rewrite app2_status_remark_cases.
  apply elem_of_partners_inv in Hm as [[-> Hno]|(r0 & Hr0 & Hk & ->)];
    cbn [App2.left App2.CGST_2B Purchase.prepare Purchase.GSTIN
         Purchase.Invoice_Number Purchase.CGST Purchase.SGST Purchase.IGST
         Purchase.GSTIN_Valid];
    fold (key_of c);
    (destruct (valid_gstin (c_GSTIN c)); [|by left]).
  - right; left. split; [done|]. split; [|done].
    intros r Hr Hk. apply (Hno (B2B.prepare r)).
    + by apply list_elem_of_fmap_2.
    + by rewrite b2b_key, purchase_key.
  - apply list_elem_of_fmap in Hr0 as (r & -> & Hr).
    rewrite b2b_key, purchase_key in Hk.
    rewrite app2_tax_diff_partner, app_tax_diff_prepare. unfold diff_of.
    cbn [B2B.prepare B2B.CGST B2B.SGST B2B.IGST].
    destruct (Z.eqb_spec
                (Z.abs (fillna0 (c_CGST c) - fillna0 (c_CGST r))
                 + Z.abs (fillna0 (c_SGST c) - fillna0 (c_SGST r))
                 + Z.abs (fillna0 (c_IGST c) - fillna0 (c_IGST r))) 0).
    + right; right; left. split; [done|]. exists r. by repeat split.
    + right; right; right. split; [done|]. exists r. by repeat split.
Qed.

Lemma row_verdict p b res row :
  App.run p b = Ok res \/ App2.run p b = Ok res -> row ∈ res ->
  exists missing_remark mismatch_remark,
    missing_remark <> "" /\ (forall d, mismatch_remark d <> "")
    /\ verdict missing_remark mismatch_remark b row.
Proof.
  intros [H|H] Hrow.
  - exists "Invoice not available in GSTR-2B",
           (fun d => "Tax Difference = " +:+ pynum (App.float_taxes p b) d).
    split; [done|]. split; [by intros d|]. by eapply app_row_verdict.
  - exists "Invoice not in 2B", (fun _ => "Tax Difference").
    split; [done|]. split; [done|]. by eapply app2_row_verdict.
Qed.

(** X1: every row that either script reports carries one of the four
    statuses offered by the status filter, and its remark is empty exactly
    for the statuses "Matched" and "Invalid GSTIN". *)
Theorem status_is_one_of_four (purchase_file b2b_file : Table)
    (res : list Report.row) (row : Report.row) :
  App.run purchase_file b2b_file = Ok res
  \/ App2.run purchase_file b2b_file = Ok res ->
  row ∈ res ->
  Report.Status row ∈ status_options
  /\ (Report.Remark row = ""
      <-> Report.Status row = "Matched"
          \/ Report.Status row = "Invalid GSTIN").
Proof.
  intros H Hrow.
  destruct (row_verdict _ _ _ _ H Hrow) as (mr & mm & Hmr & Hmm & Hv).
  unfold status_options.
  destruct Hv as [(_ & -> & ->)|[(_ & _ & -> & ->)|
                  [(_ & r & _ & _ & _ & -> & ->)|
                   (_ & r & _ & _ & _ & -> & ->)]]].
  - split; [by repeat constructor | by split; [right|]].
  - split; [by repeat constructor|].
    split; [done | by intros [?|?]].
  - split; [by repeat constructor | by split; [left|]].
  - split; [by repeat constructor|].
    split; [by intros ?%Hmm | by intros [?|?]].
Qed.

Lemma status_is_one_of_four_witness :
  Report.Status (App2.classify
                   {| App2.left := Purchase.prepare p1;
                      App2.CGST_2B := Some 90; App2.SGST_2B := Some 100;
                      App2.IGST_2B := Some 0 |}) ∈ status_options
  /\ (Report.Remark (App2.classify
                       {| App2.left := Purchase.prepare p1;
                          App2.CGST_2B := Some 90; App2.SGST_2B := Some 100;
                          App2.IGST_2B := Some 0 |}) = ""
      <-> Report.Status (App2.classify
                           {| App2.left := Purchase.prepare p1;
                              App2.CGST_2B := Some 90;
                              App2.SGST_2B := Some 100;
                              App2.IGST_2B := Some 0 |}) = "Matched"
          \/ Report.Status (App2.classify
                              {| App2.left := Purchase.prepare p1;
                                 App2.CGST_2B := Some 90;
                                 App2.SGST_2B := Some 100;
                                 App2.IGST_2B := Some 0 |})
             = "Invalid GSTIN").
Proof.
  apply (status_is_one_of_four (book [p1]) (book [r_90])
           (App2.results [Purchase.prepare p1] [B2B.prepare r_90])).
  - right. vm_compute. reflexivity.
  - apply list_elem_of_here.
Defined.

(** X2: with tax amounts that are whole numbers of magnitude at most 2^50,
    a row is reported "Matched" only when the reference workbook has a row
    with its join key whose CGST, SGST and IGST each equal the purchase
    row's own: differences in two components never cancel. *)
Theorem matched_means_equal_amounts (purchase_file b2b_file : Table)
    (res : list Report.row) (row : Report.row) :
  exact purchase_file -> exact b2b_file ->
  App.run purchase_file b2b_file = Ok res
  \/ App2.run purchase_file b2b_file = Ok res ->
  row ∈ res -> Report.Status row = "Matched" ->
  valid_gstin (Report.GSTIN row) = true
  /\ exists r, r ∈ rows b2b_file /\ agrees_with r row.
Proof.
  intros _ _ H Hrow Hst.
  destruct (row_verdict _ _ _ _ H Hrow) as (mr & mm & _ & _ & Hv).
  destruct Hv as [(_ & Hs & _)|[(_ & _ & Hs & _)|
                  [(Hval & r & Hr & Hk & Hd & _ & _)|
                   (_ & r & _ & _ & _ & Hs & _)]]];
    try (rewrite Hs in Hst; discriminate).
  split; [done|]. exists r. split; [done|].
  unfold diff_to in Hd. apply abs_sum_zero in Hd.
  unfold agrees_with. fold (row_key row). repeat split; (done || lia).
Qed.

Lemma matched_means_equal_amounts_witness :
  valid_gstin "27AAAPL1234C1Z5" = true
  /\ exists r, r ∈ rows (book [r_other; r_same])
               /\ agrees_with r (App.classify false
                                   (build (B2B.prepare <$> [r_other; r_same]))
                                   (Purchase.prepare p1)).
Proof.
  apply (matched_means_equal_amounts (book [p1]) (book [r_other; r_same])
           [App.classify false (build (B2B.prepare <$> [r_other; r_same]))
                         (Purchase.prepare p1)]
           (App.classify false (build (B2B.prepare <$> [r_other; r_same]))
                         (Purchase.prepare p1))).
  - apply (bool_decide_unpack _). vm_compute. exact I.
  - apply (bool_decide_unpack _). vm_compute. exact I.
  - left. vm_compute. reflexivity.
  - apply list_elem_of_here.
  - vm_compute. reflexivity.
Defined.

Lemma exact_diff_to_bound (p b : Table) res row (r : Cells) :
  exact p -> exact b ->
  App.run p b = Ok res \/ App2.run p b = Ok res ->
  row ∈ res -> r ∈ rows b -> 0 <= diff_to row r < 2 ^ 53.
Proof.
  intros Hp Hb H Hrow Hr.
  destruct (report_rows p b res H) as [Hback _].
  destruct (Hback row Hrow) as (c & Hc & (_ & _ & _ & E1 & E2 & E3)).
  pose proof (exact_diff_bound p b c r Hp Hb Hc Hr) as Hd.
  unfold diff_to, diff_of in *. by rewrite E1, E2, E3.
Qed.

(** X3: with tax amounts that are whole numbers of magnitude at most 2^50,
    a row is reported "Mismatch" only when its GSTIN is well formed and
    the reference workbook has a row with its join key whose amounts
    differ from it; the difference is then positive and below 2^53.
    app.py's remark is "Tax Difference = " followed by that difference,
    written as an integer when no tax column of either workbook has an
    empty cell, and with ".0" after it when one has; app2.py's remark is
    "Tax Difference". *)
Theorem mismatch_has_positive_difference (purchase_file b2b_file : Table)
    (res : list Report.row) (row : Report.row) :
  exact purchase_file -> exact b2b_file ->
  row ∈ res -> Report.Status row = "Mismatch" ->
  (App.run purchase_file b2b_file = Ok res ->
   valid_gstin (Report.GSTIN row) = true
   /\ exists r, r ∈ rows b2b_file /\ key_of r = row_key row
        /\ 0 < diff_to row r < 2 ^ 53
        /\ Report.Remark row
           = "Tax Difference = "
             +:+ pynum (has_empty purchase_file || has_empty b2b_file)
                       (diff_to row r))
  /\ (App2.run purchase_file b2b_file = Ok res ->
      valid_gstin (Report.GSTIN row) = true
      /\ exists r, r ∈ rows b2b_file /\ key_of r = row_key row
           /\ 0 < diff_to row r < 2 ^ 53
           /\ Report.Remark row = "Tax Difference").
Proof.
  intros Hep Heb Hrow Hst.
  assert (forall mr mm, verdict mr mm b2b_file row ->
            valid_gstin (Report.GSTIN row) = true
            /\ exists r, r ∈ rows b2b_file /\ key_of r = row_key row
                 /\ 0 < diff_to row r
                 /\ Report.Remark row = mm (diff_to row r)) as Hgen.
  { intros mr mm [(_ & Hs & _)|[(_ & _ & Hs & _)|
                  [(_ & r & _ & _ & _ & Hs & _)|
                   (Hval & r & Hr & Hk & Hd & _ & Hrem)]]];
      try (rewrite Hs in Hst; discriminate).
    split; [done|]. exists r. repeat split; try done.
    pose proof (abs_sum_nonneg (Report.CGST row - fillna0 (c_CGST r))
                  (Report.SGST row - fillna0 (c_SGST r))
                  (Report.IGST row - fillna0 (c_IGST r))).
    unfold diff_to in *. lia. }
  split; intros H.
  - destruct (Hgen _ _ (app_row_verdict _ _ _ _ H Hrow))
      as (Hv & r & Hr & Hk & Hd & Hrem).
    split; [done|]. exists r.
    pose proof (exact_diff_to_bound _ _ _ _ r Hep Heb (or_introl H) Hrow Hr).
    repeat split; (done || lia).
  - destruct (Hgen _ _ (app2_row_verdict _ _ _ _ H Hrow))
      as (Hv & r & Hr & Hk & Hd & Hrem).
    split; [done|]. exists r.
    pose proof (exact_diff_to_bound _ _ _ _ r Hep Heb (or_intror H) Hrow Hr).
    repeat split; (done || lia).
Qed.

Lemma mismatch_has_positive_difference_witness :
  valid_gstin "27AAAPL1234C1Z5" = true
  /\ exists r, r ∈ rows (book [r_90])
       /\ key_of r = row_key (App.classify false (build [B2B.prepare r_90])
                                           (Purchase.prepare p1))
       /\ 0 < diff_to (App.classify false (build [B2B.prepare r_90])
                                    (Purchase.prepare p1)) r < 2 ^ 53
       /\ Report.Remark (App.classify false (build [B2B.prepare r_90])
                                      (Purchase.prepare p1))
          = "Tax Difference = "
            +:+ pynum (has_empty (book [p1]) || has_empty (book [r_90]))
                  (diff_to (App.classify false (build [B2B.prepare r_90])
                                         (Purchase.prepare p1)) r).
Proof.
  refine (proj1 (mismatch_has_positive_difference
                   (book [p1]) (book [r_90])
                   [App.classify false (build [B2B.prepare r_90])
                                 (Purchase.prepare p1)]
                   (App.classify false (build [B2B.prepare r_90])
                                 (Purchase.prepare p1)) _ _ _ _) _).
  - apply (bool_decide_unpack _). vm_compute. exact I.
  - apply (bool_decide_unpack _). vm_compute. exact I.
  - apply list_elem_of_here.
  - vm_compute. reflexivity.
  - vm_compute. reflexivity.
Defined.

(** X4: a reported row has status "Missing in 2B" exactly when its GSTIN is
    well formed and no reference row has its join key; this holds for
    either script. *)
Theorem missing_iff_no_reference_row (purchase_file b2b_file : Table)
    (res : list Report.row) (row : Report.row) :
  App.run purchase_file b2b_file = Ok res
  \/ App2.run purchase_file b2b_file = Ok res ->
  row ∈ res ->
  (Report.Status row = "Missing in 2B"
   <-> valid_gstin (Report.GSTIN row) = true
       /\ forall r, r ∈ rows b2b_file -> key_of r <> row_key row).
Proof.
  intros H Hrow.
  destruct (row_verdict _ _ _ _ H Hrow) as (mr & mm & _ & _ & Hv).
  destruct Hv as [(Hval & Hs & _)|[(Hval & Hno & Hs & _)|
                  [(Hval & r & Hr & Hk & _ & Hs & _)|
                   (Hval & r & Hr & Hk & _ & Hs & _)]]];
    rewrite Hs; split; try done.
  - intros [? _]. congruence.
  - intros [_ Hno]. by destruct (Hno r Hr).
  - intros [_ Hno]. by destruct (Hno r Hr).
Qed.

Lemma missing_iff_no_reference_row_witness :
  Report.Status (App.classify false (build [B2B.prepare r_other])
                              (Purchase.prepare p1)) = "Missing in 2B"
  <-> valid_gstin (Report.GSTIN (App.classify false (build [B2B.prepare r_other])
                                              (Purchase.prepare p1))) = true
      /\ forall r, r ∈ rows (book [r_other]) ->
           key_of r <> row_key (App.classify false (build [B2B.prepare r_other])
                                             (Purchase.prepare p1)).
Proof.
  apply (missing_iff_no_reference_row (book [p1]) (book [r_other])
           [App.classify false (build [B2B.prepare r_other]) (Purchase.prepare p1)]).
  - left. vm_compute. reflexivity.
  - apply list_elem_of_here.
Defined.

(** X5: a reported row has status "Invalid GSTIN" exactly when its GSTIN
    fails the format check: a well formed GSTIN is never reported invalid,
    whatever the reference workbook holds. *)
Theorem invalid_iff_format_fails (purchase_file b2b_file : Table)
    (res : list Report.row) (row : Report.row) :
  App.run purchase_file b2b_file = Ok res
  \/ App2.run purchase_file b2b_file = Ok res ->
  row ∈ res ->
  (Report.Status row = "Invalid GSTIN"
   <-> valid_gstin (Report.GSTIN row) = false).
Proof.
  intros H Hrow.
  destruct (row_verdict _ _ _ _ H Hrow) as (mr & mm & _ & _ & Hv).
  destruct Hv as [(Hval & Hs & _)|[(Hval & Hno & Hs & _)|
                  [(Hval & r & Hr & Hk & _ & Hs & _)|
                   (Hval & r & Hr & Hk & _ & Hs & _)]]];
    rewrite Hs, Hval; split; done.
Qed.

Lemma invalid_iff_format_fails_witness :
  Report.Status (App2.classify
                   {| App2.left := Purchase.prepare p_bad;
                      App2.CGST_2B := Some 90; App2.SGST_2B := Some 100;
                      App2.IGST_2B := Some 0 |}) = "Invalid GSTIN"
  <-> valid_gstin
        (Report.GSTIN (App2.classify
                         {| App2.left := Purchase.prepare p_bad;
                            App2.CGST_2B := Some 90;
                            App2.SGST_2B := Some 100;
                            App2.IGST_2B := Some 0 |})) = false.
Proof.
  apply (invalid_iff_format_fails (book [p_bad]) (book [r_bad])
           (App2.results [Purchase.prepare p_bad] [B2B.prepare r_bad])).
  - right. vm_compute. reflexivity.
  - apply list_elem_of_here.
Defined.

(** ** KPI cards *)




(** ** The two scripts side by side *)







(** X9: for workbooks whose headers resolve to distinct names, app2.py
    produces a report exactly when both workbooks have the six columns;
    repeated join keys in the reference workbook do not stop it.  So it
    accepts every such pair of workbooks that app.py accepts. *)
Theorem app2_run_succeeds_iff (purchase_file b2b_file : Table) :
  regular purchase_file -> regular b2b_file ->
  ((exists res, App2.run purchase_file b2b_file = Ok res)
   <-> complete App2.rename_map purchase_file
       /\ complete App2.rename_map b2b_file)
  /\ ((exists res, App.run purchase_file b2b_file = Ok res) ->
      exists res, App2.run purchase_file b2b_file = Ok res).
Proof.
  intros Hrp Hrb.
  assert ((exists res, App2.run purchase_file b2b_file = Ok res)
          <-> complete App2.rename_map purchase_file
              /\ complete App2.rename_map b2b_file) as Hiff.
  { split.
    - intros [res H]. by apply app2_run_Ok_complete in H.
    - intros [Hp Hb]. eexists. by apply app2_run_complete. }
  split; [done|].
  intros [res H]. apply Hiff.
  destruct (app_run_Ok_complete _ _ _ H) as [Hp Hb].
  split; by apply complete_same.
Qed.

Lemma app2_run_succeeds_iff_witness :
  ((exists res, App2.run (book [p1]) (book [r_90; r_same]) = Ok res)
   <-> complete App2.rename_map (book [p1])
       /\ complete App2.rename_map (book [r_90; r_same]))
  /\ ((exists res, App.run (book [p1]) (book [r_90; r_same]) = Ok res) ->
      exists res, App2.run (book [p1]) (book [r_90; r_same]) = Ok res).
Proof.
  apply (app2_run_succeeds_iff (book [p1]) (book [r_90; r_same])).
  - apply (bool_decide_unpack _). vm_compute. exact I.
  - apply (bool_decide_unpack _). vm_compute. exact I.
Defined.

Lemma validate_first_missing (pre post : list string) (col : string)
    (pcols bcols : list string) :
  Forall (fun c => c ∈ pcols /\ c ∈ bcols) pre ->
  App2.validate (pre ++ col :: post) pcols bcols
  = if decide (col ∈ pcols) then
      if decide (col ∈ bcols) then App2.validate post pcols bcols
      else Err (StStop ("❌ Missing column in 2B File: " +:+ col))
    else Err (StStop ("❌ Missing column in Purchase File: " +:+ col)).
Proof.
  induction 1 as [|c pre [Hp Hb] _ IH]; [reflexivity|].
  change (App2.validate ((c :: pre) ++ col :: post) pcols bcols)
    with (if decide (c ∈ pcols) then
            if decide (c ∈ bcols)
            then App2.validate (pre ++ col :: post) pcols bcols
            else Err (StStop ("❌ Missing column in 2B File: " +:+ c))
          else Err (StStop ("❌ Missing column in Purchase File: " +:+ c))).
  rewrite (decide_True _ _ Hp), (decide_True _ _ Hb). exact IH.
Qed.

(** X10: app2.py names the first column of its required list (GSTIN,
    Invoice_Number, Invoice_Date, CGST, SGST, IGST) that is missing, and
    for that column the purchase workbook before the 2B workbook: later
    defects are not reported. *)
Theorem app2_reports_first_missing_column
    (purchase_file b2b_file : Table) (pre post : list string) (col : string) :
  App2.required_cols = pre ++ col :: post ->
  Forall (fun c => c ∈ resolve App2.rename_map purchase_file
                   /\ c ∈ resolve App2.rename_map b2b_file) pre ->
  ((col ∉ resolve App2.rename_map purchase_file) ->
   App2.run purchase_file b2b_file
   = Err (StStop ("❌ Missing column in Purchase File: " +:+ col)))
  /\ (col ∈ resolve App2.rename_map purchase_file ->
      (col ∉ resolve App2.rename_map b2b_file) ->
      App2.run purchase_file b2b_file
      = Err (StStop ("❌ Missing column in 2B File: " +:+ col))).
Proof.
  intros E Hpre. unfold App2.run, App2.prepare.
  rewrite E, (validate_first_missing _ _ _ _ _ Hpre).
  split.
  - intros Hn. by rewrite decide_False.
  - intros Hp Hn. by rewrite decide_True, decide_False.
Qed.

Lemma app2_reports_first_missing_column_witness :
  App2.run {| columns := ["GSTIN"; "Invoice No"; "CGST"]; rows := [p1] |}
           {| columns := ["GSTIN"; "Invoice Number"]; rows := [] |}
  = Err (StStop "❌ Missing column in Purchase File: Invoice_Date").
Proof.
  refine (proj1 (app2_reports_first_missing_column
                   {| columns := ["GSTIN"; "Invoice No"; "CGST"];
                      rows := [p1] |}
                   {| columns := ["GSTIN"; "Invoice Number"]; rows := [] |}
                   ["GSTIN"; "Invoice_Number"] ["CGST"; "SGST"; "IGST"]
                   "Invoice_Date" _ _) _).
  - reflexivity.
  - apply (bool_decide_unpack _). vm_compute. exact I.
  - apply (bool_decide_unpack _). vm_compute. exact I.
Defined.

(** ** Headers and empty cells *)

Lemma is_space_spec (c : ascii) :
  is_space c = true
  <-> (9 <= nat_of_ascii c <= 13 \/ 28 <= nat_of_ascii c <= 32)%nat.
Proof.
  unfold is_space. cbv zeta.
  rewrite !orb_true_iff, !andb_true_iff, !Nat.leb_le, Nat.eqb_eq. lia.
Qed.

Lemma is_space_false (c : ascii) :
  is_space c = false
  <-> ~ (9 <= nat_of_ascii c <= 13 \/ 28 <= nat_of_ascii c <= 32)%nat.
Proof. by rewrite <- is_space_spec, not_true_iff_false. Qed.

(** Turns the byte tests of the context and of the goal into arithmetic. *)
Ltac bytes :=
  unfold is_space2, is_space3 in *;
  repeat match goal with
         | H : is_space _ = true |- _ => apply is_space_spec in H
         | H : is_space _ = false |- _ => apply is_space_false in H
         | H : bool_decide _ = true |- _ => apply bool_decide_eq_true in H
         | H : bool_decide _ = false |- _ => apply bool_decide_eq_false in H
         end;
  first [ apply is_space_spec | apply is_space_false
        | apply bool_decide_eq_true | apply bool_decide_eq_false
        | idtac ];
  lia.

(** Induction over a sequence of white space characters. *)
Lemma blank_cases (P : string -> Prop) :
  P "" ->
  (forall c s, is_space c = true -> blank s = true -> P s -> P (String c s)) ->
  (forall c d s, is_space c = false -> is_space2 c d = true ->
                 blank s = true -> P s -> P (String c (String d s))) ->
  (forall c d e s, is_space c = false -> is_space2 c d = false ->
                   is_space3 c d e = true -> blank s = true -> P s ->
                   P (String c (String d (String e s)))) ->
  forall s, blank s = true -> P s.
Proof.
  intros H0 H1 H2 H3 s.
  assert (forall n t, (String.length t <= n)%nat -> blank t = true -> P t)
    as H; [|by eauto].
  clear s. induction n as [|n IH]; intros [|c t] Hn Hb; try done.
  { cbn in Hn. lia. }
  cbn [blank] in Hb. cbn [String.length] in Hn.
  destruct (is_space c) eqn:E1.
  { apply H1; [done..|]. apply IH; [lia | done]. }
  destruct t as [|d t]; [done|]. cbn [String.length] in Hn.
  destruct (is_space2 c d) eqn:E2.
  { apply H2; [done..|]. apply IH; [lia | done]. }
  destruct t as [|e t]; [done|]. cbn [String.length] in Hn.
  apply andb_true_iff in Hb as [E3 Hb].
  apply H3; [done..|]. apply IH; [lia | done].
Qed.

Lemma lstrip_blank_app (pre s : string) :
  blank pre = true -> lstrip (pre +:+ s) = lstrip s.
Proof.
  revert pre. apply (blank_cases (fun pre => lstrip (pre +:+ s) = lstrip s)).
  - reflexivity.
  - intros c t E1 _ IH. rewrite append_cons. cbn [lstrip]. by rewrite E1.
  - intros c d t E1 E2 _ IH. rewrite !append_cons. cbn [lstrip].
    by rewrite E1, E2.
  - intros c d e t E1 E2 E3 _ IH. rewrite !append_cons. cbn [lstrip].
    by rewrite E1, E2, E3.
Qed.

Lemma rstrip_cons (c : ascii) (s : string) :
  rstrip (String c s)
  = if whitespace (String c (rstrip s)) then "" else String c (rstrip s).
Proof. reflexivity. Qed.

(** A byte that neither is white space nor starts a longer white space
    character is never dropped from the end. *)
Lemma whitespace_inner (c : ascii) (t : string) :
  is_space c = false ->
  (nat_of_ascii c <> 194 /\ nat_of_ascii c <> 225
   /\ nat_of_ascii c <> 226 /\ nat_of_ascii c <> 227)%nat ->
  whitespace (String c t) = false.
Proof.
  intros E H. destruct t as [|d [|e [|f t]]]; cbn [whitespace];
    [done | bytes | bytes | done].
Qed.

Lemma whitespace_space (c : ascii) (t : string) :
  is_space c = true -> t <> "" -> whitespace (String c t) = false.
Proof.
  intros E H. destruct t as [|d [|e [|f t]]]; cbn [whitespace];
    [done | bytes | bytes | done].
Qed.

Lemma whitespace_two (c d : ascii) (t : string) :
  is_space2 c d = true -> t <> "" ->
  whitespace (String c (String d t)) = false.
Proof.
  intros E H. destruct t as [|e [|f t]]; cbn [whitespace];
    [done | bytes | done].
Qed.

Lemma append_nonempty (pre : string) (c : ascii) (s : string) :
  pre +:+ String c s <> "".
Proof. destruct pre; [done|]. by rewrite append_cons. Qed.

Lemma rstrip_blank (s : string) : blank s = true -> rstrip s = "".
Proof.
  revert s. apply (blank_cases (fun s => rstrip s = "")).
  - reflexivity.
  - intros c t E1 _ IH. rewrite rstrip_cons, IH. cbn [whitespace].
    by rewrite E1.
  - intros c d t E1 E2 _ IH. rewrite !rstrip_cons, IH.
    assert (is_space d = false) as Ed by bytes.
    cbn [whitespace]. rewrite Ed. cbn [whitespace]. by rewrite E2.
  - intros c d e t E1 E2 E3 _ IH. rewrite !rstrip_cons, IH.
    assert (is_space e = false) as Ee by bytes.
    assert (is_space2 d e = false) as Ede by bytes.
    cbn [whitespace]. rewrite Ee. cbn [whitespace]. rewrite Ede.
    cbn [whitespace]. by rewrite E3.
Qed.

Lemma rstrip_app_blank (s post : string) :
  blank post = true -> rstrip (s +:+ post) = rstrip s.
Proof.
  intros Hpost. induction s as [|c s IH]; [by apply rstrip_blank|].
  by rewrite append_cons, !rstrip_cons, IH.
Qed.

Lemma rstrip_blank_app (pre x : string) :
  blank pre = true ->
  rstrip (pre +:+ x)
  = match rstrip x with
    | EmptyString => EmptyString
    | String _ _ => pre +:+ rstrip x
    end.
Proof.
  revert pre.
  apply (blank_cases
           (fun pre => rstrip (pre +:+ x)
                       = match rstrip x with
                         | EmptyString => EmptyString
                         | String _ _ => pre +:+ rstrip x
                         end)).
  - change ("" +:+ x) with x. by destruct (rstrip x).
  - intros c t E1 _ IH. rewrite append_cons, rstrip_cons, IH.
    destruct (rstrip x) as [|y r].
    + cbn [whitespace]. by rewrite E1.
    + rewrite whitespace_space by (done || apply append_nonempty).
      by rewrite append_cons.
  - intros c d t E1 E2 _ IH. rewrite !append_cons, !rstrip_cons, IH.
    assert (is_space d = false) as Ed by bytes.
    destruct (rstrip x) as [|y r].
    + cbn [whitespace]. rewrite Ed. cbn [whitespace]. by rewrite E2.
    + rewrite (whitespace_inner d) by (done || bytes).
      rewrite whitespace_two by (done || apply append_nonempty).
      by rewrite ?append_cons.
  - intros c d e t E1 E2 E3 _ IH. rewrite !append_cons, !rstrip_cons, IH.
    assert (is_space e = false) as Ee by bytes.
    assert (is_space2 d e = false) as Ede by bytes.
    destruct (rstrip x) as [|y r].
    + cbn [whitespace]. rewrite Ee. cbn [whitespace]. rewrite Ede.
      cbn [whitespace]. by rewrite E3.
    + rewrite (whitespace_inner e) by (done || bytes).
      assert (is_space d = false) as Ed by bytes.
      rewrite (whitespace_inner d) by (done || bytes).
      destruct (t +:+ String y r) as [|z u] eqn:Eu;
        [by apply append_nonempty in Eu|].
      cbn [whitespace]. by rewrite <- Eu, ?append_cons.
Qed.

Lemma strip_padding (pre h post : string) :
  blank pre = true -> blank post = true ->
  strip (pre +:+ h +:+ post) = strip h.
Proof.
  intros Hpre Hpost. unfold strip.
  rewrite (rstrip_blank_app _ _ Hpre), (rstrip_app_blank _ _ Hpost).
  destruct (rstrip h) as [|y t] eqn:E; [done|].
  by apply lstrip_blank_app.
Qed.

(** A header of [t'] is the header of [t] in the same position, padded
    with white space on either side. *)
Lemma resolve_padding m (t t' : Table) :
  Forall2 (fun h h' => exists pre post,
             blank pre = true /\ blank post = true
             /\ h' = pre +:+ h +:+ post) (columns t) (columns t') ->
  resolve m t' = resolve m t.
Proof.
  unfold resolve. induction 1 as [|h h' l l' (pre & post & ? & ? & ->) _ IH];
    [done|].
  cbn [fmap list_fmap]. rewrite strip_padding by done. f_equal. exact IH.
Qed.

Lemma app_run_ext (p p' b b' : Table) :
  resolve App.rename_map p' = resolve App.rename_map p -> rows p' = rows p ->
  resolve App.rename_map b' = resolve App.rename_map b -> rows b' = rows b ->
  App.run p' b' = App.run p b.
Proof.
  intros Hp Hrp Hb Hrb.
  unfold App.run, App.prepare, App.float_taxes, has_empty.
  by rewrite Hp, Hrp, Hb, Hrb.
Qed.

Lemma app2_run_ext (p p' b b' : Table) :
  resolve App2.rename_map p' = resolve App2.rename_map p ->
  rows p' = rows p ->
  resolve App2.rename_map b' = resolve App2.rename_map b ->
  rows b' = rows b ->
  App2.run p' b' = App2.run p b.
Proof.
  intros Hp Hrp Hb Hrb. unfold App2.run, App2.prepare.
  by rewrite Hp, Hrp, Hb, Hrb.
Qed.

(** X11: white space around column headers does not matter.  Two workbooks
    with the same rows whose headers differ only by leading and trailing
    white space (any of the characters that [str.strip()] removes, such as
    space, tab, U+00A0 or U+3000) give the same outcome, report or error,
    in either script and on either side. *)
Theorem padded_headers_make_no_difference (p p' b b' : Table) :
  rows p' = rows p -> rows b' = rows b ->
  Forall2 (fun h h' => exists pre post,
             blank pre = true /\ blank post = true
             /\ h' = pre +:+ h +:+ post) (columns p) (columns p') ->
  Forall2 (fun h h' => exists pre post,
             blank pre = true /\ blank post = true
             /\ h' = pre +:+ h +:+ post) (columns b) (columns b') ->
  App.run p' b' = App.run p b /\ App2.run p' b' = App2.run p b.
Proof.
  intros Hrp Hrb Hp Hb.
  split; [apply app_run_ext | apply app2_run_ext];
    auto using resolve_padding.
Qed.

Lemma padded_headers_make_no_difference_witness :
  App.run {| columns := [String "194" (String "160" "GSTIN");
                         "Invoice No  "; String "009" "Invoice Date";
                         "CGST"; "SGST " +:+ String "227" (String "128"
                                               (String "128" ""));
                         "IGST"];
             rows := [p1] |}
          (book [r_90])
  = App.run (book [p1]) (book [r_90])
  /\ App2.run {| columns := [String "194" (String "160" "GSTIN");
                             "Invoice No  "; String "009" "Invoice Date";
                             "CGST"; "SGST " +:+ String "227" (String "128"
                                                   (String "128" ""));
                             "IGST"];
                 rows := [p1] |}
              (book [r_90])
     = App2.run (book [p1]) (book [r_90]).
Proof.
  apply (padded_headers_make_no_difference
           (book [p1])
           {| columns := [String "194" (String "160" "GSTIN");
                          "Invoice No  "; String "009" "Invoice Date";
                          "CGST"; "SGST " +:+ String "227" (String "128"
                                                (String "128" ""));
                          "IGST"];
              rows := [p1] |}
           (book [r_90]) (book [r_90])).
  - reflexivity.
  - reflexivity.
  - repeat constructor.
    + by exists (String "194" (String "160" "")), "".
    + by exists "", "  ".
    + by exists (String "009" ""), "".
    + by exists "", "".
    + by exists "", (" " +:+ String "227" (String "128" (String "128" ""))).
    + by exists "", "".
  - repeat constructor; by exists "", "".
Defined.

(** ** Empty workbooks *)




(** ** Charts *)

(** X15: the bars of the Status Distribution chart add up to the Total
    card, for any report frame. *)
Theorem status_distribution_sums_to_total (df : list Report.row) :
  row_total (Status_Distribution (dashboard df)) = Total (dashboard df).
Proof.
  cbn [dashboard Status_Distribution Total].
  by rewrite row_total_value_counts, length_fmap.
Qed.

Lemma occurrences_statuses_of g s df :
  occurrences s (statuses_of g df) = cell_count g s df.
Proof.
  unfold occurrences, statuses_of, cell_count.
  induction df as [|r df IH]; [done|].
  rewrite !filter_cons.
  destruct (decide (Report.GSTIN r = g)) as [Hg|Hg].
  - cbn [fmap list_fmap]. rewrite filter_cons.
    destruct (decide (Report.Status r = s)) as [Hs|Hs].
    + rewrite decide_True by done. cbn [length]. by rewrite IH.
    + rewrite decide_False by (by intros [_ ?]). exact IH.
  - rewrite decide_False by (by intros [? _]). exact IH.
Qed.

Lemma cell_count_pos g s df :
  cell_count g s df <> 0%nat -> s ∈ Report.Status <$> df.
Proof.
  unfold cell_count. intros H.
  destruct (filter _ df) as [|r l] eqn:E; [done|].
  assert (r ∈ filter (fun r => Report.GSTIN r = g /\ Report.Status r = s) df)
    as Hr by (rewrite E; apply list_elem_of_here).
  apply list_elem_of_filter in Hr as [[_ <-] Hr].
  by apply list_elem_of_fmap_2.
Qed.

Lemma unstack_columns (df : list Report.row) (s : string) :
  s ∈ (⋃ ((fun kv : string * gmap string nat => dom kv.2)
           <$> map_to_list (value_counts <$> groupby_status df))
       : gset string)
  <-> s ∈ Report.Status <$> df.
Proof.
  rewrite elem_of_union_list. split.
  - intros (X & HX & Hs).
    apply list_elem_of_fmap in HX as ([g vc] & -> & Hkv).
    apply elem_of_map_to_list in Hkv. rewrite lookup_fmap in Hkv.
    rewrite groupby_status_lookup in Hkv.
    cbn [snd] in Hs. apply elem_of_dom in Hs as [n Hn].
    destruct (statuses_of g df) as [|x l] eqn:E; [done|].
    assert (vc = value_counts (x :: l)) as -> by (by injection Hkv).
    rewrite value_counts_lookup in Hn.
    apply (cell_count_pos g). rewrite <- occurrences_statuses_of, E.
    destruct (decide (occurrences s (x :: l) = 0%nat)); [discriminate|done].
  - intros (r & -> & Hr)%list_elem_of_fmap.
    assert (cell_count (Report.GSTIN r) (Report.Status r) df <> 0%nat) as Hc.
    { unfold cell_count.
      assert (r ∈ filter (fun r0 => Report.GSTIN r0 = Report.GSTIN r
                                    /\ Report.Status r0 = Report.Status r) df)
        as Hin by (by apply list_elem_of_filter).
      destruct (filter _ df); [by apply elem_of_nil in Hin | done]. }
    rewrite <- occurrences_statuses_of in Hc.
    exists (dom (value_counts (statuses_of (Report.GSTIN r) df))). split.
    + apply list_elem_of_fmap.
      exists (Report.GSTIN r, value_counts (statuses_of (Report.GSTIN r) df)).
      split; [done|]. apply elem_of_map_to_list.
      rewrite lookup_fmap, groupby_status_lookup.
      destruct (statuses_of (Report.GSTIN r) df) eqn:E; [done|]. done.
    + apply elem_of_dom. rewrite value_counts_lookup.
      rewrite decide_False by done. by eexists.
Qed.

(** X16: the Vendor Summary cell by cell.  Its columns are the statuses
    that occur somewhere in the frame, the same for every vendor row, and
    the cell of vendor [g] under status [s] is the number of rows with
    that GSTIN and that status, 0 included. *)
Theorem vendor_summary_cells (df : list Report.row) (g s : string)
    (row : gmap string nat) :
  vendor_summary df !! g = Some row ->
  row !! s = if decide (s ∈ Report.Status <$> df)
             then Some (cell_count g s df) else None.
Proof.
  unfold vendor_summary, fillna0_frame, unstack.
  rewrite !lookup_fmap, groupby_status_lookup.
  pose proof (occurrences_statuses_of g s df) as Hocc.
  destruct (statuses_of g df) as [|x l]; [done|].
  generalize dependent (x :: l). intros L Hocc Hrow.
  apply (inj Some) in Hrow. subst row.
  rewrite lookup_fmap, lookup_union, lookup_fmap, lookup_gset_to_gmap.
  rewrite value_counts_lookup, Hocc.
  pose proof (unstack_columns df s) as Hcols.
  pose proof (cell_count_pos g s df) as Hpos.
  destruct (decide (cell_count g s df = 0%nat)) as [H0|Hn0].
  - rewrite H0. destruct (decide (s ∈ Report.Status <$> df)) as [Hin|Hout].
    + rewrite option_guard_True by (by apply Hcols). done.
    + rewrite option_guard_False by (by rewrite Hcols). done.
  - rewrite decide_True by auto.
    by destruct (guard _).
Qed.

Lemma vendor_summary_cells_witness :
  ({[ "Mismatch" := 2%nat; "Invalid GSTIN" := 0%nat ]} : gmap string nat)
    !! "Invalid GSTIN"
  = if decide ("Invalid GSTIN"
               ∈ Report.Status
                 <$> App2.results (Purchase.prepare <$> [p1; p_bad; p1])
                                  (B2B.prepare <$> [r_other; r_90]))
    then Some (cell_count "27AAAPL1234C1Z5" "Invalid GSTIN"
                 (App2.results (Purchase.prepare <$> [p1; p_bad; p1])
                               (B2B.prepare <$> [r_other; r_90])))
    else None.
Proof.
  apply (vendor_summary_cells
           (App2.results (Purchase.prepare <$> [p1; p_bad; p1])
                         (B2B.prepare <$> [r_other; r_90]))
           "27AAAPL1234C1Z5").
  vm_compute. reflexivity.
Defined.

(** ** Join keys of well formed GSTINs *)

Lemma valid_gstin_split (g : string) :
  valid_gstin g = true ->
  exists body tail,
    g = body +:+ tail /\ String.length body = 15%nat
    /\ (tail = "" \/ tail = String "010" "").
Proof.
  rewrite valid_gstin_unroll.
  do 15 (destruct g as [|? g]; [discriminate|]).
  intros [_ Hd]%andb_true_iff.
  eexists (String _ (String _ (String _ (String _ (String _ (String _
    (String _ (String _ (String _ (String _ (String _ (String _
    (String _ (String _ (String _ ""))))))))))))))), g.
  split; [reflexivity|]. split; [reflexivity|].
  destruct g as [|c [|c' g]]; [by left| |discriminate].
  right. cbn [Re.dollar] in Hd. apply Ascii.eqb_eq in Hd. by subst.
Qed.

Lemma append_inj_length (a a' b b' : string) :
  String.length a = String.length a' ->
  a +:+ b = a' +:+ b' -> a = a' /\ b = b'.
Proof.
  revert a'. induction a as [|c a IH]; intros [|c' a'] Hlen; try discriminate.
  - by intros.
  - rewrite !append_cons. intros [= -> H].
    destruct (IH a') as [-> ->]; [by injection Hlen | done | done].
Qed.

(** X17: on well formed GSTINs the join key is unambiguous.  If two GSTINs
    both pass the format check and their keys are equal, then the GSTINs
    and the invoice numbers are equal: a purchase row is only ever matched
    against a reference row of another vendor when one of the two GSTINs
    is malformed. *)
Theorem make_key_injective_on_valid (g g' i i' : string) :
  valid_gstin g = true -> valid_gstin g' = true ->
  make_key g i = make_key g' i' ->
  g = g' /\ i = i'.
Proof.
  intros (b & t & -> & Hb & Ht)%valid_gstin_split
         (b' & t' & -> & Hb' & Ht')%valid_gstin_split.
  unfold make_key.
  assert (forall x y z : string, (x +:+ y) +:+ z = x +:+ (y +:+ z)) as Hassoc.
  { intros x y z. induction x as [|c x IH]; [done|].
    by rewrite !append_cons, IH. }
  rewrite !Hassoc. intros Hk.
  apply append_inj_length in Hk as [-> Hk]; [|congruence].
  destruct Ht as [-> | ->], Ht' as [-> | ->].
  - change ("" +:+ "_" +:+ i) with ("_" +:+ i) in Hk.
    change ("" +:+ "_" +:+ i') with ("_" +:+ i') in Hk.
    rewrite !append_cons in Hk. injection Hk as Hk.
    split; [done | exact Hk].
  - change ("" +:+ "_" +:+ i) with ("_" +:+ i) in Hk.
    rewrite !append_cons in Hk. discriminate.
  - change ("" +:+ "_" +:+ i') with ("_" +:+ i') in Hk.
    rewrite !append_cons in Hk. discriminate.
  - rewrite !append_cons in Hk. injection Hk as Hk.
    split; [done | exact Hk].
Qed.

Lemma make_key_injective_on_valid_witness :
  "27AAAPL1234C1Z5" = "27AAAPL1234C1Z5" /\ "INV001" = "INV001".
Proof.
  apply (make_key_injective_on_valid
           "27AAAPL1234C1Z5" "27AAAPL1234C1Z5" "INV001" "INV001");
    reflexivity.
Defined.

(** ** app2.py: the sidebar *)

Lemma in_range_spec lo hi d :
  in_range lo hi d = true <-> exists t, d = Some t /\ lo <= t <= hi.
Proof.
  destruct d as [t|]; cbn.
  - rewrite andb_true_iff, !Z.leb_le. split.
    + intros [? ?]. exists t. split; [done | lia].
    + intros (t' & [= <-] & ?). lia.
  - split; [discriminate | by intros (? & ? & _)].
Qed.

(** The three conditions a row has to meet for the current sidebar. *)
Lemma elem_of_filtered_df (df : list Report.row) (sb : Sidebar) r :
  r ∈ filtered_df df sb
  <-> r ∈ df
      /\ (vendor_filter sb = [] \/ Report.GSTIN r ∈ vendor_filter sb)
      /\ (status_filter sb = [] \/ Report.Status r ∈ status_filter sb)
      /\ (forall lo hi, date_range sb = [lo; hi] ->
            exists t, Report.Invoice_Date r = Some t /\ lo <= t <= hi).
Proof.
  unfold filtered_df.
  set (l1 := match vendor_filter sb with
             | [] => df
             | _ => filter (fun r => Report.GSTIN r ∈ vendor_filter sb) df
             end).
  set (l2 := match status_filter sb with
             | [] => l1
             | _ => filter (fun r => Report.Status r ∈ status_filter sb) l1
             end).
  assert (r ∈ l1 <-> r ∈ df /\ (vendor_filter sb = []
                                \/ Report.GSTIN r ∈ vendor_filter sb)) as H1.
  { subst l1. destruct (vendor_filter sb) as [|v vf] eqn:E.
    - split; [by intros ?; split; [|left] | by intros [? _]].
    - rewrite list_elem_of_filter. split.
      + intros [? ?]. split; [done | by right].
      + intros [? [?|?]]; [done | by split]. }
  assert (r ∈ l2 <-> r ∈ l1 /\ (status_filter sb = []
                                \/ Report.Status r ∈ status_filter sb)) as H2.
  { subst l2. destruct (status_filter sb) as [|s0 sf] eqn:E.
    - split; [by intros ?; split; [|left] | by intros [? _]].
    - rewrite list_elem_of_filter. split.
      + intros [? ?]. split; [done | by right].
      + intros [? [?|?]]; [done | by split]. }
  assert (r ∈ match date_range sb with
              | [d0; d1] =>
                  filter (fun r => in_range d0 d1 (Report.Invoice_Date r)
                                   = true) l2
              | _ => l2
              end
          <-> r ∈ l2
              /\ (forall lo hi, date_range sb = [lo; hi] ->
                    exists t, Report.Invoice_Date r = Some t
                              /\ lo <= t <= hi)) as H3.
  { destruct (date_range sb) as [|lo [|hi [|x dr]]] eqn:E;
      try (split; [by intros ?; split | by intros [? _]]).
    rewrite list_elem_of_filter, in_range_spec. split.
    - intros [Ht ?]. split; [done|]. by intros lo' hi' [= <- <-].
    - intros [? Ht]. split; [by apply Ht | done]. }
  rewrite H3, H2, H1. tauto.
Qed.

Lemma filtered_df_sublist (df : list Report.row) (sb : Sidebar) :
  sublist (filtered_df df sb) df.
Proof.
  destruct sb as [vf sf dr]. unfold filtered_df.
  cbn [vendor_filter status_filter date_range].
  destruct vf as [|v vf], sf as [|s0 sf], dr as [|lo [|hi [|x dr]]];
    repeat (try reflexivity; etrans; [apply sublist_filter|]);
    reflexivity.
Qed.

(** X18: what the sidebar lets through.  The rows shown are a selection of
    the report rows in their original order, and a row is shown exactly
    when its GSTIN is among the selected vendors (or none is selected),
    its status is among the selected statuses (or none is selected), and,
    once two dates are picked, its date was parsed and lies between them,
    bounds included. *)
Theorem sidebar_filters (df : list Report.row) (sb : Sidebar) :
  sublist (filtered_df df sb) df
  /\ forall r,
       r ∈ filtered_df df sb
       <-> r ∈ df
           /\ (vendor_filter sb = [] \/ Report.GSTIN r ∈ vendor_filter sb)
           /\ (status_filter sb = [] \/ Report.Status r ∈ status_filter sb)
           /\ (forall lo hi, date_range sb = [lo; hi] ->
                 exists t, Report.Invoice_Date r = Some t /\ lo <= t <= hi).
Proof.
  split; [apply filtered_df_sublist | apply elem_of_filtered_df].
Qed.

Lemma filter_all {A} (P : A -> Prop) `{forall x, Decision (P x)} (l : list A) :
  (forall x, x ∈ l -> P x) -> filter P l = l.
Proof.
  induction l as [|x l IH]; [done|]. intros Hall.
  rewrite filter_cons_True by (apply Hall, list_elem_of_here).
  f_equal. apply IH. intros y Hy. by apply Hall, list_elem_of_further.
Qed.

Lemma filter_none {A} (P : A -> Prop) `{forall x, Decision (P x)} (l : list A) :
  (forall x, x ∈ l -> ~ P x) -> filter P l = [].
Proof.
  induction l as [|x l IH]; [done|]. intros Hnone.
  rewrite filter_cons_False by (apply Hnone, list_elem_of_here).
  apply IH. intros y Hy. by apply Hnone, list_elem_of_further.
Qed.

(** X19: the date range.  While fewer or more than two dates are picked
    the date filter is off.  With two dates picked, a row whose date could
    not be parsed is never shown, and a range whose second date lies
    before the first shows nothing. *)
Theorem date_range_filter (df : list Report.row) (sb : Sidebar) :
  (length (date_range sb) <> 2%nat ->
   filtered_df df sb
   = filtered_df df {| vendor_filter := vendor_filter sb;
                       status_filter := status_filter sb;
                       date_range := [] |})
  /\ (forall lo hi, date_range sb = [lo; hi] ->
        (forall r, r ∈ filtered_df df sb -> Report.Invoice_Date r <> None)
        /\ (hi < lo -> filtered_df df sb = [])).
Proof.
  split.
  - intros Hlen. unfold filtered_df. cbn [vendor_filter status_filter date_range].
    by destruct (date_range sb) as [|lo [|hi [|x dr]]].
  - intros lo hi E. split.
    + intros r (_ & _ & _ & Hd)%elem_of_filtered_df.
      destruct (Hd lo hi E) as (t & -> & _). done.
    + intros Hlt. unfold filtered_df. rewrite E.
      apply filter_none. intros r _ (t & _ & ?)%in_range_spec. lia.
Qed.

Lemma date_range_filter_witness :
  (forall r,
     r ∈ filtered_df
           (App2.results (Purchase.prepare
                            <$> [dated "27AAAPL1234C1Z5" "A" (Some 5);
                                 dated "27AAAPL1234C1Z5" "B" None]) [])
           {| vendor_filter := []; status_filter := [];
              date_range := [1; 9] |} ->
     Report.Invoice_Date r <> None)
  /\ (9 < 1 ->
      filtered_df
        (App2.results (Purchase.prepare
                         <$> [dated "27AAAPL1234C1Z5" "A" (Some 5);
                              dated "27AAAPL1234C1Z5" "B" None]) [])
        {| vendor_filter := []; status_filter := []; date_range := [1; 9] |}
      = []).
Proof.
  apply (proj2 (date_range_filter
                  (App2.results
                     (Purchase.prepare
                        <$> [dated "27AAAPL1234C1Z5" "A" (Some 5);
                             dated "27AAAPL1234C1Z5" "B" None]) [])
                  {| vendor_filter := []; status_filter := [];
                     date_range := [1; 9] |}) 1 9).
  reflexivity.
Defined.

(** X20: what the filtered dashboard can show.  Its Total never exceeds
    the number of report rows; once vendors are selected the Vendor
    Summary has rows for selected vendors only, and once statuses are
    selected the status chart has bars for selected statuses only. *)
Theorem filtered_dashboard_shows_selection
    (df : list Report.row) (sb : Sidebar) :
  (Total (view df sb) <= length df)%nat
  /\ (forall g, vendor_filter sb <> [] ->
        is_Some (Vendor_Summary (view df sb) !! g) -> g ∈ vendor_filter sb)
  /\ (forall s, status_filter sb <> [] ->
        is_Some (Status_Distribution (view df sb) !! s) ->
        s ∈ status_filter sb).
Proof.
  unfold view. cbn [dashboard Total Vendor_Summary Status_Distribution].
  split; [|split].
  - apply sublist_length, filtered_df_sublist.
  - intros g Hne Hg.
    apply (proj1 (vendor_summary_row _ g)) in Hg.
    apply list_elem_of_fmap in Hg as (r & -> & Hr).
    apply elem_of_filtered_df in Hr as (_ & [?|?] & _); done.
  - intros s Hne [n Hn]. rewrite value_counts_lookup in Hn.
    destruct (decide (occurrences s
                        (Report.Status <$> filtered_df df sb) = 0%nat))
      as [|Hocc]; [discriminate|].
    unfold occurrences in Hocc.
    destruct (filter _ (Report.Status <$> filtered_df df sb))
      as [|x l] eqn:E; [done|].
    assert (x ∈ filter (fun x => x = s)
                       (Report.Status <$> filtered_df df sb)) as Hx
      by (rewrite E; apply list_elem_of_here).
    apply list_elem_of_filter in Hx as [-> Hx].
    apply list_elem_of_fmap in Hx as (r & -> & Hr).
    apply elem_of_filtered_df in Hr as (_ & _ & [?|?] & _); done.
Qed.

(** ** app2.py: the vendor options *)

Lemma elem_of_unique (l : list string) (x : string) : x ∈ unique l <-> x ∈ l.
Proof.
  induction l as [|y l IH]; [done|].
  cbn [unique]. rewrite !elem_of_cons, list_elem_of_filter, IH.
  destruct (decide (x = y)); tauto.
Qed.

Lemma NoDup_unique (l : list string) : NoDup (unique l).
Proof.
  induction l as [|y l IH]; [constructor|].
  cbn [unique]. constructor.
  - by intros [? _]%list_elem_of_filter.
  - by apply NoDup_filter.
Qed.

(** X21: the vendors offered by the sidebar are exactly the GSTINs that
    occur in the report, each offered once, in ascending order of their
    characters. *)
Theorem vendor_options_sorted_distinct (result_df : list Report.row) :
  StronglySorted String.le (vendor_options result_df)
  /\ NoDup (vendor_options result_df)
  /\ forall g, g ∈ vendor_options result_df
               <-> g ∈ Report.GSTIN <$> result_df.
Proof.
  unfold vendor_options. split; [|split].
  - apply StronglySorted_merge_sort; apply _.
  - rewrite merge_sort_Permutation. apply NoDup_unique.
  - intros g. rewrite merge_sort_Permutation. apply elem_of_unique.
Qed.

(** X22: selecting every vendor that is offered, with the other filters
    off, shows the whole report: the selection changes nothing. *)
Theorem selecting_all_vendors_shows_everything
    (result_df : list Report.row) (sb : Sidebar) :
  vendor_filter sb = vendor_options result_df ->
  status_filter sb = [] -> date_range sb = [] ->
  filtered_df result_df sb = result_df.
Proof.
  intros Hv Hs Hd. unfold filtered_df. rewrite Hs, Hd, Hv.
  destruct (vendor_options result_df) as [|v l] eqn:E; [done|].
  rewrite <- E. apply filter_all. intros r Hr.
  unfold vendor_options. rewrite merge_sort_Permutation.
  apply elem_of_unique. by apply list_elem_of_fmap_2.
Qed.

Lemma selecting_all_vendors_shows_everything_witness :
  filtered_df
    (App2.results (Purchase.prepare <$> [p1; p_bad; p1])
                  (B2B.prepare <$> [r_other; r_90]))
    {| vendor_filter := ["27AAAPL1234C1Z5"; "INVALID123"];
       status_filter := []; date_range := [] |}
  = App2.results (Purchase.prepare <$> [p1; p_bad; p1])
                 (B2B.prepare <$> [r_other; r_90]).
Proof.
  apply (selecting_all_vendors_shows_everything
           (App2.results (Purchase.prepare <$> [p1; p_bad; p1])
                         (B2B.prepare <$> [r_other; r_90]))
           {| vendor_filter := ["27AAAPL1234C1Z5"; "INVALID123"];
              status_filter := []; date_range := [] |}).
  - vm_compute. reflexivity.
  - reflexivity.
  - reflexivity.
Defined.
